(** * coc-explorer: floating preview factory, preset list and child columns

    A shallow embedding of three source files of the explorer plugin:

    - [src/floating/floatingFactory3.ts]  (class [FloatingFactory3]),
    - [src/source/sources/file/child-columns/readonly.ts],
    - [src/source/sources/buffer/child-columns/fullpath.ts] together with
      the [PresetList] class.

    The plugin runs inside an editor; everything the editor answers is
    collected in a record of host responses, and everything the plugin
    asks the editor to do is recorded in a trace of calls. *)

From Stdlib Require Import ZArith String Ascii List Bool Lia DecimalString.
Import ListNotations.

(** ** JavaScript numbers

    The numbers the factory handles are window ids, buffer numbers and
    screen dimensions reported by the editor, together with the result of
    [FloatBuffer.getDimension].  They are modelled as integers plus the
    one non-number [NaN] that [createPopup] explicitly tests for.
    Fractions, infinities and the loss of precision above 2^53 are left
    out. *)
Module JS.

Inductive number : Type :=
| Int (z : Z)
| NaN.

Definition add (a b : number) : number :=
  match a, b with
  | Int x, Int y => Int (x + y)
  | _, _ => NaN
  end.

Definition sub (a b : number) : number :=
  match a, b with
  | Int x, Int y => Int (x - y)
  | _, _ => NaN
  end.

(** unary minus *)
Definition neg (a : number) : number :=
  match a with
  | Int x => Int (- x)
  | NaN => NaN
  end.

(** [Math.min]: [NaN] as soon as one argument is [NaN] *)
Definition min (a b : number) : number :=
  match a, b with
  | Int x, Int y => Int (Z.min x y)
  | _, _ => NaN
  end.

(** The relational operators; every comparison with [NaN] is false. *)
Definition lt (a b : number) : bool :=
  match a, b with
  | Int x, Int y => (x <? y)%Z
  | _, _ => false
  end.

Definition le (a b : number) : bool :=
  match a, b with
  | Int x, Int y => (x <=? y)%Z
  | _, _ => false
  end.

Definition gt (a b : number) : bool := lt b a.

Definition ge (a b : number) : bool := le b a.

(** [===] on numbers *)
Definition eqb (a b : number) : bool :=
  match a, b with
  | Int x, Int y => (x =? y)%Z
  | _, _ => false
  end.

Definition isNaN (a : number) : bool :=
  match a with
  | Int _ => false
  | NaN => true
  end.

(** Truthiness of a number: [0] and [NaN] are falsy. *)
Definition truthy (a : number) : bool :=
  match a with
  | Int x => negb (x =? 0)%Z
  | NaN => false
  end.

(** [a || b] on numbers *)
Definition or_else (a b : number) : number :=
  if truthy a then a else b.

(** String conversion, as done by a template literal. *)
Definition to_string (a : number) : string :=
  match a with
  | Int x => NilEmpty.string_of_int (Z.to_int x)
  | NaN => "NaN"
  end.

End JS.

Declare Scope js_scope.
Delimit Scope js_scope with js.
Notation "a + b" := (JS.add a b) : js_scope.
Notation "a - b" := (JS.sub a b) : js_scope.
Notation "- a" := (JS.neg a) : js_scope.
Notation "a <? b" := (JS.lt a b) : js_scope.
Notation "a <=? b" := (JS.le a b) : js_scope.
Notation "a >? b" := (JS.gt a b) : js_scope.
Notation "a >=? b" := (JS.ge a b) : js_scope.
Notation "a '|||' b" := (JS.or_else a b) (at level 50, left associativity) : js_scope.

Coercion JS.Int : Z >-> JS.number.

(** ** The floating preview factory *)
Module Floating.

Import JS.
Local Open Scope string_scope.

(** [Documentation] of coc.nvim: the pieces of text shown in the popup. *)
Record Documentation : Type := mkDoc {
  filetype : string;
  content : string;
}.

(** [BufferHighlight] of the neovim client. *)
Record BufferHighlight : Type := mkHl {
  hlGroup : string;
  hl_line : number;
  colStart : number;
  colEnd : number;
}.

(** The part of a window object the factory reads: [id] and [width]. *)
Record Window : Type := mkWindow {
  win_id : number;
  win_width : number;
}.

(** [WindowConfig] of coc.nvim's float factory. *)
Record WindowConfig : Type := mkConfig {
  cfg_row : number;
  cfg_col : number;
  cfg_width : number;
  cfg_height : number;
  cfg_relative : string;
}.

(** Result of [winsaveview()]. *)
Record View : Type := mkView {
  topline : number;
  leftcol : number;
  lnum : number;
  view_col : number;
}.

(** Result of [FloatBuffer.getDimension]. *)
Record Dimension : Type := mkDim {
  dim_width : number;
  dim_height : number;
}.

(** [Env] of coc.nvim, restricted to the fields the factory reads. *)
Record Env : Type := mkEnv {
  env_columns : number;
  env_lines : number;
  env_cmdheight : number;
}.

(** Argument of a remote call. *)
Inductive arg : Type :=
| ANum (n : number)
| ABool (b : bool)
| AStr (s : string)
| AConfig (c : WindowConfig).

(** What the factory asks of its surroundings, in program order.  The
    boolean of [NvimCall] and [NvimCommand] is the [isNotify] flag. *)
Inductive call : Type :=
| NvimCall (fn : string) (args : list arg) (notify : bool)
| NvimCommand (cmd : string) (notify : bool)
| PauseNotification
| ResumeNotification
| GetDimension (docs : list Documentation) (maxWidth maxHeight : number)
| SetDocuments (docs : list Documentation) (width : number)
| SetLines (bufnr : number) (winid : option number)
| AddHighlight (bufnr : number) (hl : BufferHighlight)
| OnCursorMovedCancel
| TokenCancel
| SelectCurrentPlaceholder (triggerAutocmd : bool)
| Delay (ms : Z)
| DisposeAll
| Log (level msg : string).

(** Everything the editor and the rest of the plugin answer during one
    run of a method.  [cancelled k] tells whether the popup's
    cancellation token has been cancelled (by a call that ran during an
    [await]) at the [k]-th of the four places where [createPopup] tests
    it.  [resume_error] is the error slot of [resumeNotification], its
    three components as a template literal prints them. *)
Record Host : Type := mkHost {
  supportedFloat : bool;
  arg_position : string;
  arg_floatingPosition : string;
  config_floating_border_enable : bool;
  explorer_floatingBorderWin : option Window;
  explorer_win : option Window;
  explorer_currentLineIndex : number;
  getDimension : list Documentation -> number -> number -> Dimension;
  winsaveview : View;
  nvim_win_get_config : number -> WindowConfig;
  get_float_mode : bool -> bool -> bool -> option (string * number * (number * number));
  create_float_win : number -> number -> WindowConfig -> option (number * number);
  resume_error : option (string * string * string);
  cancelled : nat -> bool;
  workspace_isNvim : bool;
  workspace_isVim : bool;
  workspace_bufnr : number;
  workspace_insertMode : bool;
}.

(** A [CancellationTokenSource]. *)
Record TokenSource : Type := mkTokenSource {
  isCancellationRequested : bool;
}.

(** The fields of a [FloatingFactory3] object.  [floatBuffer] and
    [onCursorMoved] stay undefined when the constructor returns early;
    [targetBufnr] is undefined until [createPopup] assigns it. *)
Record Factory : Type := mkFactory {
  targetBufnr : option number;
  winid : number;
  bufnr : number;
  floatBuffer : bool;
  tokenSource : option TokenSource;
  alignTop : bool;
  pumAlignTop : bool;
  onCursorMoved : bool;
  env : Env;
  preferTop : bool;
  maxHeight : number;
  maxWidth : option number;
  autoHide : bool;
}.

Definition set_targetBufnr (v : option number) (s : Factory) : Factory :=
  mkFactory v (winid s) (bufnr s) (floatBuffer s) (tokenSource s) (alignTop s)
    (pumAlignTop s) (onCursorMoved s) (env s) (preferTop s) (maxHeight s)
    (maxWidth s) (autoHide s).

Definition set_winid (v : number) (s : Factory) : Factory :=
  mkFactory (targetBufnr s) v (bufnr s) (floatBuffer s) (tokenSource s) (alignTop s)
    (pumAlignTop s) (onCursorMoved s) (env s) (preferTop s) (maxHeight s)
    (maxWidth s) (autoHide s).

Definition set_bufnr (v : number) (s : Factory) : Factory :=
  mkFactory (targetBufnr s) (winid s) v (floatBuffer s) (tokenSource s) (alignTop s)
    (pumAlignTop s) (onCursorMoved s) (env s) (preferTop s) (maxHeight s)
    (maxWidth s) (autoHide s).

Definition set_tokenSource (v : option TokenSource) (s : Factory) : Factory :=
  mkFactory (targetBufnr s) (winid s) (bufnr s) (floatBuffer s) v (alignTop s)
    (pumAlignTop s) (onCursorMoved s) (env s) (preferTop s) (maxHeight s)
    (maxWidth s) (autoHide s).

Definition set_alignTop (v : bool) (s : Factory) : Factory :=
  mkFactory (targetBufnr s) (winid s) (bufnr s) (floatBuffer s) (tokenSource s) v
    (pumAlignTop s) (onCursorMoved s) (env s) (preferTop s) (maxHeight s)
    (maxWidth s) (autoHide s).

Definition set_pumAlignTop (v : bool) (s : Factory) : Factory :=
  mkFactory (targetBufnr s) (winid s) (bufnr s) (floatBuffer s) (tokenSource s)
    (alignTop s) v (onCursorMoved s) (env s) (preferTop s) (maxHeight s)
    (maxWidth s) (autoHide s).

(** *** The monad of methods: state, trace of calls, exceptions *)

Inductive error : Type :=
| TypeError (message : string)
| Error (message : string).

Definition message_of (e : error) : string :=
  match e with
  | TypeError m => m
  | Error m => m
  end.

Inductive outcome (A : Type) : Type :=
| Ok (a : A)
| Thrown (e : error).
Arguments Ok {A} a.
Arguments Thrown {A} e.

Definition M (A : Type) : Type := Factory -> outcome A * Factory * list call.

Definition ret {A : Type} (a : A) : M A := fun s => (Ok a, s, []).

Definition bind {A B : Type} (m : M A) (k : A -> M B) : M B :=
  fun s =>
    match m s with
    | (Ok a, s1, t1) =>
        match k a s1 with
        | (r, s2, t2) => (r, s2, (t1 ++ t2)%list)
        end
    | (Thrown e, s1, t1) => (Thrown e, s1, t1)
    end.

Definition this : M Factory := fun s => (Ok s, s, []).

Definition assign (f : Factory -> Factory) : M unit := fun s => (Ok tt, f s, []).

Definition emit (c : call) : M unit := fun s => (Ok tt, s, [c]).

Definition throw {A : Type} (e : error) : M A := fun s => (Thrown e, s, []).

(** [try { m } catch (e) { handler e }] *)
Definition try_catch {A : Type} (m : M A) (handler : error -> M A) : M A :=
  fun s =>
    match m s with
    | (Ok a, s1, t1) => (Ok a, s1, t1)
    | (Thrown e, s1, t1) =>
        match handler e s1 with
        | (r, s2, t2) => (r, s2, (t1 ++ t2)%list)
        end
    end.

(** [for (const x of xs) { body x }] *)
Fixpoint for_of {A : Type} (xs : list A) (body : A -> M unit) : M unit :=
  match xs with
  | [] => ret tt
  | x :: rest => bind (body x) (fun _ => for_of rest body)
  end.

Notation "x <- m ;; k" := (bind m (fun x => k))
  (at level 100, m at next level, right associativity).
Notation "m ;;; k" := (bind m (fun _ => k))
  (at level 100, right associativity).

(** The three components of a run. *)
Definition result_of {A : Type} (r : outcome A * Factory * list call) : outcome A :=
  fst (fst r).
Definition state_of {A : Type} (r : outcome A * Factory * list call) : Factory :=
  snd (fst r).
Definition trace_of {A : Type} (r : outcome A * Factory * list call) : list call :=
  snd r.

(** *** Getters *)

Definition columns (s : Factory) : number := env_columns (env s).

Definition lines (s : Factory) : number :=
  (env_lines (env s) - env_cmdheight (env s) - Int 1)%js.

(** *** [getWindowConfig] *)

(** The window the preview is placed next to. *)
Definition containerWin (h : Host) : option Window :=
  let position := arg_position h in
  let isFloating := String.eqb position "floating" in
  let enabledFloatingBorder := config_floating_border_enable h in
  if isFloating && enabledFloatingBorder
  then explorer_floatingBorderWin h
  else explorer_win h.

Definition getWindowConfig (h : Host) (docs : list Documentation)
    (win_position : number * number) : M (option WindowConfig) :=
  s <- this ;;
  let columns := columns s in
  let preferTop := preferTop s in
  let lines := lines s in
  let this_maxHeight := maxHeight s in
  let alignTop := false in
  let winRow := fst win_position in
  let position := arg_position h in
  match containerWin h with
  | None => ret None
  | Some containerWin =>
      let containerWidth := win_width containerWin in
      let maxWidth := (columns - containerWidth - Int 1)%js in
      let maxHeight := if alignTop then winRow else (lines - winRow - Int 1)%js in
      let maxHeight := JS.min maxHeight (this_maxHeight ||| lines)%js in
      emit (GetDimension docs maxWidth maxHeight) ;;;
      let dim := getDimension h docs maxWidth maxHeight in
      let previewWidth := dim_width dim in
      let previewHeight := dim_height dim in
      let alignTop :=
        if negb preferTop then
          if (lines - winRow <? previewHeight)%js && (winRow >? previewHeight)%js
          then true else alignTop
        else
          if (winRow >=? previewHeight)%js || (winRow >=? lines - winRow)%js
          then true else alignTop in
      assign (set_alignTop alignTop) ;;;
      let explorerLineIndex := explorer_currentLineIndex h in
      emit (NvimCall "winsaveview" [] false) ;;;
      let view := winsaveview h in
      let col := Int 0 in
      let row :=
        (explorerLineIndex - topline view + Int 1
         + (if alignTop then - previewHeight + Int 1 else Int 0))%js in
      if String.eqb position "left" then
        let col := containerWidth in
        ret (Some (mkConfig row col previewWidth previewHeight "editor"))
      else if String.eqb position "right" then
        let col := (columns - previewWidth - containerWidth)%js in
        ret (Some (mkConfig row col previewWidth previewHeight "editor"))
      else if String.eqb position "floating" then
        emit (NvimCall "nvim_win_get_config" [ANum (win_id containerWin)] false) ;;;
        let floating := nvim_win_get_config h (win_id containerWin) in
        let floatingRow := cfg_row floating in
        let floatingCol := cfg_col floating in
        let floatingPosition := arg_floatingPosition h in
        let row := (row + floatingRow)%js in
        if String.eqb floatingPosition "left-center" then
          let col := (floatingCol + containerWidth)%js in
          ret (Some (mkConfig row col previewWidth previewHeight "editor"))
        else if String.eqb floatingPosition "right-center" then
          let col := (floatingCol - previewWidth)%js in
          ret (Some (mkConfig row col previewWidth previewHeight "editor"))
        else ret None
      else
        ret (Some (mkConfig row col previewWidth previewHeight "editor"))
  end.

(** *** [cancel], [close] and [dispose] *)

Definition cancel : M unit :=
  s <- this ;;
  let tokenSource := tokenSource s in
  match tokenSource with
  | Some _ =>
      emit TokenCancel ;;;
      assign (set_tokenSource None)
  | None => ret tt
  end.

Definition close (h : Host) : M unit :=
  s <- this ;;
  let winid := winid s in
  cancel ;;;
  if truthy winid then
    emit PauseNotification ;;;
    emit (NvimCall "coc#util#close_win" [ANum winid] true) ;;;
    (if workspace_isVim h then emit (NvimCommand "redraw" true) else ret tt) ;;;
    assign (set_winid (Int 0)) ;;;
    emit ResumeNotification
  else ret tt.

Definition dispose : M unit :=
  s <- this ;;
  (match tokenSource s with
   | Some _ => emit TokenCancel
   | None => ret tt
   end) ;;;
  emit DisposeAll.

(** *** [create] and [createPopup] *)

(** [docs.length === 0 || docs.every((d) => d.content.length === 0)] *)
Definition no_content (docs : list Documentation) : bool :=
  (length docs =? 0)%nat
  || forallb (fun d => (String.length (content d) =? 0)%nat) docs.

(** [this.onCursorMoved.cancel()]; the member is undefined when the
    constructor returned early. *)
Definition onCursorMoved_cancel : M unit :=
  s <- this ;;
  if onCursorMoved s then emit OnCursorMovedCancel
  else throw (TypeError "Cannot read property 'cancel' of undefined").

(** [floatBuffer.setDocuments(docs, width)] on the captured member *)
Definition floatBuffer_setDocuments (floatBuffer : bool)
    (docs : list Documentation) (width : number) : M unit :=
  if floatBuffer then emit (SetDocuments docs width)
  else throw (TypeError "Cannot read property 'setDocuments' of undefined").

(** The key sequence that moves the cursor of the popup. *)
Definition normal_cmd (showBottom : bool) : string :=
  "noa normal! " ++ (if showBottom then "G" else "gg") ++ "0".

Definition createPopup (h : Host) (docs : list Documentation)
    (highlights : list BufferHighlight) (allowSelection : bool) : M unit :=
  assign (set_tokenSource (Some (mkTokenSource false))) ;;;
  s <- this ;;
  let alignTop := alignTop s in
  let pumAlignTop := pumAlignTop s in
  let floatBuffer := floatBuffer s in
  emit (NvimCall "coc#util#get_float_mode"
          [ABool allowSelection; ABool alignTop; ABool pumAlignTop] false) ;;;
  match get_float_mode h allowSelection alignTop pumAlignTop with
  | None => ret tt
  | Some (mode, targetBufnr, win_position) =>
      if cancelled h 1 then ret tt
      else if no_content docs then close h
      else
        assign (set_targetBufnr (Some targetBufnr)) ;;;
        config <- getWindowConfig h docs win_position ;;
        match config with
        | None => ret tt
        | Some config =>
            if (cfg_width config <=? Int 0)%js
               || (cfg_height config <=? Int 0)%js
               || isNaN (cfg_height config)
            then close h
            else
              floatBuffer_setDocuments floatBuffer docs (cfg_width config) ;;;
              if cancelled h 2 then ret tt
              else
                s <- this ;;
                emit (NvimCall "coc#util#create_float_win"
                        [ANum (winid s); ANum (bufnr s); AConfig config] false) ;;;
                match create_float_win h (winid s) (bufnr s) config with
                | None => ret tt
                | Some (res0, res1) =>
                    if cancelled h 3 then ret tt
                    else
                      assign (set_winid res0) ;;;
                      let winid := res0 in
                      assign (set_bufnr res1) ;;;
                      let bufnr := res1 in
                      let showBottom := alignTop && (1 <? length docs)%nat in
                      emit PauseNotification ;;;
                      (if workspace_isNvim h then
                         emit (NvimCommand
                                 ("noa call win_gotoid(" ++ to_string winid ++ ")")
                                 true) ;;;
                         emit (SetLines bufnr None) ;;;
                         for_of highlights (fun hl => emit (AddHighlight bufnr hl)) ;;;
                         emit (NvimCommand (normal_cmd showBottom) true) ;;;
                         emit (NvimCommand "noa wincmd p" true)
                       else
                         emit (SetLines bufnr (Some winid)) ;;;
                         for_of highlights (fun hl => emit (AddHighlight bufnr hl)) ;;;
                         emit (NvimCall "win_execute"
                                 [ANum winid; AStr (normal_cmd showBottom)] true) ;;;
                         emit (NvimCommand "redraw" true)) ;;;
                      emit ResumeNotification ;;;
                      match resume_error h with
                      | Some (e0, e1, e2) =>
                          throw (Error ("Error on " ++ e0 ++ ": " ++ e1 ++ " - " ++ e2))
                      | None =>
                          (if String.eqb mode "s" && negb (cancelled h 4) then
                             emit (SelectCurrentPlaceholder false) ;;;
                             emit (Delay 50)
                           else ret tt) ;;;
                          onCursorMoved_cancel
                      end
                end
        end
  end.

Definition create (h : Host) (docs : list Documentation)
    (highlights : list BufferHighlight) (allowSelection : bool) : M unit :=
  if negb (supportedFloat h) then
    emit (Log "error" "Floating window & textprop not supported!")
  else
    onCursorMoved_cancel ;;;
    if no_content docs then close h
    else
      cancel ;;;
      try_catch (createPopup h docs highlights allowSelection)
        (fun e =>
           emit (Log "error" ("Error on create popup: " ++ message_of e)) ;;;
           close h).

(** *** Construction and the event handlers *)

(** State of the object when the constructor returns: the field
    initialisers, then the members that exist only with float support. *)
Definition constructor (h : Host) (env : Env) (preferTop : bool)
    (maxHeight : number) (maxWidth : option number) (autoHide : bool) : Factory :=
  mkFactory None (Int 0) (Int 0) (supportedFloat h) None false false
    (supportedFloat h) env preferTop maxHeight maxWidth autoHide.

(** The same with the default values of the optional parameters. *)
Definition constructor_default (h : Host) (env : Env) : Factory :=
  constructor h env false (Int 999) None true.

(** [bufnr === this.targetBufnr], the member being possibly undefined *)
Definition is_targetBufnr (b : number) (s : Factory) : bool :=
  match targetBufnr s with
  | Some t => JS.eqb b t
  | None => false
  end.

Definition on_BufEnter (h : Host) (bufnr' : number) : M unit :=
  s <- this ;;
  if JS.eqb bufnr' (bufnr s) || is_targetBufnr bufnr' s then ret tt
  else close h.

Definition on_MenuPopupChanged (h : Host) (ev_row cursorline : number) : M unit :=
  let pumAlignTop := (cursorline >? ev_row)%js in
  assign (set_pumAlignTop pumAlignTop) ;;;
  s <- this ;;
  if Bool.eqb pumAlignTop (alignTop s) then close h else ret tt.

Definition _onCursorMoved (h : Host) : M unit :=
  s <- this ;;
  let bufnr' := workspace_bufnr h in
  let insertMode := workspace_insertMode h in
  if JS.eqb bufnr' (bufnr s) then ret tt
  else if autoHide s then close h
  else if negb insertMode || negb (is_targetBufnr bufnr' s) then close h
  else ret tt.

(** *** Predicates on traces *)

Definition is_create_float_win (c : call) : bool :=
  match c with
  | NvimCall fn _ _ => String.eqb fn "coc#util#create_float_win"
  | _ => false
  end.

(** Did the run ask the editor to create the popup window? *)
Definition creates_popup (t : list call) : bool := existsb is_create_float_win t.

(** The call by which [close] removes window [w]. *)
Definition close_win (w : number) : call :=
  NvimCall "coc#util#close_win" [ANum w] true.

(** *** Sessions

    The public methods and the subscribed event handlers, and the states
    a factory can be in: fresh from the constructor, or after a method
    ran to its end.  Whether the editor supports floating windows is
    fixed for a session; its other answers are free at every step. *)
Inductive method : Type :=
| Create (docs : list Documentation) (highlights : list BufferHighlight)
    (allowSelection : bool)
| CreatePopup (docs : list Documentation) (highlights : list BufferHighlight)
    (allowSelection : bool)
| GetWindowConfig (docs : list Documentation) (win_position : number * number)
| Close
| Dispose
| BufEnter (bufnr : number)
| MenuPopupChanged (ev_row cursorline : number)
| CursorMoved.

Definition run (h : Host) (m : method) : M unit :=
  match m with
  | Create docs highlights allowSelection => create h docs highlights allowSelection
  | CreatePopup docs highlights allowSelection =>
      createPopup h docs highlights allowSelection
  | GetWindowConfig docs win_position =>
      getWindowConfig h docs win_position ;;; ret tt
  | Close => close h
  | Dispose => dispose
  | BufEnter b => on_BufEnter h b
  | MenuPopupChanged ev_row cursorline => on_MenuPopupChanged h ev_row cursorline
  | CursorMoved => _onCursorMoved h
  end.

Inductive reachable (float : bool) : Factory -> Prop :=
| reachable_new :
    forall h env preferTop maxHeight maxWidth autoHide,
      supportedFloat h = float ->
      reachable float (constructor h env preferTop maxHeight maxWidth autoHide)
| reachable_run :
    forall h m s,
      supportedFloat h = float ->
      reachable float s ->
      reachable float (state_of (run h m s)).

(** The members that exist only with float support do exist exactly
    then, and without float support there is no popup window. *)
Definition constructed (float : bool) (s : Factory) : Prop :=
  floatBuffer s = float
  /\ onCursorMoved s = float
  /\ (float = false -> truthy (winid s) = false).

(** Preservation of a property of the factory by a method. *)
Definition preserves {A : Type} (I : Factory -> Prop) (m : M A) : Prop :=
  forall s, I s -> I (state_of (m s)).

(** The two members that only the constructor assigns. *)
Definition members (fb oc : bool) (s : Factory) : Prop :=
  floatBuffer s = fb /\ onCursorMoved s = oc.

(** The outcome shared by the guards that give up on a popup: the method
    returns, the factory holds no window afterwards, the window it held
    has been closed by the editor, and no window was created. *)
Definition closed_without_popup (s : Factory)
    (r : outcome unit * Factory * list call) : Prop :=
  result_of r = Ok tt
  /\ truthy (winid (state_of r)) = false
  /\ creates_popup (trace_of r) = false
  /\ (truthy (winid s) = true -> In (close_win (winid s)) (trace_of r)).

(** *** A sample session

    An editor of 120 columns and 40 lines with the explorer in a window
    of width 40 on the left; the preview of any documentation measures
    30 by 5. *)
Definition sample_env : Env := mkEnv (Int 120) (Int 40) (Int 1).

Definition sample_host : Host :=
  mkHost true "left" "left-center" false None
    (Some (mkWindow (Int 1000) (Int 40))) (Int 7)
    (fun _ _ _ => mkDim (Int 30) (Int 5))
    (mkView (Int 1) (Int 0) (Int 8) (Int 0))
    (fun _ => mkConfig (Int 2) (Int 10) (Int 40) (Int 20) "editor")
    (fun _ _ _ => Some ("n", Int 3, (Int 12, Int 4)))
    (fun _ _ _ => Some (Int 1001, Int 9))
    None (fun _ => false) true false (Int 3) false.

(** The same editor when [getDimension] answers a height of zero. *)
Definition flat_host : Host :=
  mkHost true "left" "left-center" false None
    (Some (mkWindow (Int 1000) (Int 40))) (Int 7)
    (fun _ _ _ => mkDim (Int 30) (Int 0))
    (mkView (Int 1) (Int 0) (Int 8) (Int 0))
    (fun _ => mkConfig (Int 2) (Int 10) (Int 40) (Int 20) "editor")
    (fun _ _ _ => Some ("n", Int 3, (Int 12, Int 4)))
    (fun _ _ _ => Some (Int 1001, Int 9))
    None (fun _ => false) true false (Int 3) false.

Definition sample_factory : Factory := constructor_default sample_host sample_env.

Definition sample_docs : list Documentation := [mkDoc "markdown" "hello"].

(** The factory after it has shown [sample_docs]: popup window 1001 is
    open. *)
Definition sample_shown : Factory :=
  state_of (run sample_host (Create sample_docs [] false) sample_factory).

(** The same editor when [resumeNotification] reports an error of the
    batch that fills the popup. *)
Definition failing_host : Host :=
  mkHost true "left" "left-center" false None
    (Some (mkWindow (Int 1000) (Int 40))) (Int 7)
    (fun _ _ _ => mkDim (Int 30) (Int 5))
    (mkView (Int 1) (Int 0) (Int 8) (Int 0))
    (fun _ => mkConfig (Int 2) (Int 10) (Int 40) (Int 20) "editor")
    (fun _ _ _ => Some ("n", Int 3, (Int 12, Int 4)))
    (fun _ _ _ => Some (Int 1001, Int 9))
    (Some ("nvim_command", "0", "E492")) (fun _ => false) true false (Int 3) false.

(** An editor without floating windows, one that gives no float mode,
    and one where the token is cancelled while the window is created. *)
Definition plain_host : Host :=
  mkHost false "left" "left-center" false None
    (Some (mkWindow (Int 1000) (Int 40))) (Int 7)
    (fun _ _ _ => mkDim (Int 30) (Int 5))
    (mkView (Int 1) (Int 0) (Int 8) (Int 0))
    (fun _ => mkConfig (Int 2) (Int 10) (Int 40) (Int 20) "editor")
    (fun _ _ _ => Some ("n", Int 3, (Int 12, Int 4)))
    (fun _ _ _ => None)
    None (fun _ => false) true false (Int 3) false.

Definition busy_host : Host :=
  mkHost true "left" "left-center" false None
    (Some (mkWindow (Int 1000) (Int 40))) (Int 7)
    (fun _ _ _ => mkDim (Int 30) (Int 5))
    (mkView (Int 1) (Int 0) (Int 8) (Int 0))
    (fun _ => mkConfig (Int 2) (Int 10) (Int 40) (Int 20) "editor")
    (fun _ _ _ => None)
    (fun _ _ _ => Some (Int 1001, Int 9))
    None (fun _ => false) true false (Int 3) false.

Definition racing_host : Host :=
  mkHost true "left" "left-center" false None
    (Some (mkWindow (Int 1000) (Int 40))) (Int 7)
    (fun _ _ _ => mkDim (Int 30) (Int 5))
    (mkView (Int 1) (Int 0) (Int 8) (Int 0))
    (fun _ => mkConfig (Int 2) (Int 10) (Int 40) (Int 20) "editor")
    (fun _ _ _ => Some ("n", Int 3, (Int 12, Int 4)))
    (fun _ _ _ => Some (Int 1002, Int 10))
    None (fun k => Nat.eqb k 3) true false (Int 3) false.

(** An editor in which the explorer window is gone. *)
Definition bare_host : Host :=
  mkHost true "left" "left-center" false None None (Int 7)
    (fun _ _ _ => mkDim (Int 30) (Int 5))
    (mkView (Int 1) (Int 0) (Int 8) (Int 0))
    (fun _ => mkConfig (Int 2) (Int 10) (Int 40) (Int 20) "editor")
    (fun _ _ _ => Some ("n", Int 3, (Int 12, Int 4)))
    (fun _ _ _ => Some (Int 1001, Int 9))
    None (fun _ => false) true false (Int 3) false.

(** *** Notification batches

    [pauseNotification] opens a batch and [resumeNotification] sends it.
    [batch_step open c] is the batch state after call [c], or [None]
    when [c] breaks the protocol: a batch opened inside a batch or sent
    without being open, a notification ([isNotify] true, [setLines],
    [addHighlight]) outside a batch, or a request inside one. *)
Definition batch_step (open : bool) (c : call) : option bool :=
  match c with
  | PauseNotification => if open then None else Some true
  | ResumeNotification => if open then Some false else None
  | NvimCall _ _ notify => if Bool.eqb notify open then Some open else None
  | NvimCommand _ notify => if Bool.eqb notify open then Some open else None
  | SetLines _ _ => if open then Some open else None
  | AddHighlight _ _ => if open then Some open else None
  | _ => Some open
  end.

Fixpoint batching (open : bool) (t : list call) : option bool :=
  match t with
  | [] => Some open
  | c :: rest =>
      match batch_step open c with
      | Some open' => batching open' rest
      | None => None
      end
  end.

(** A trace that keeps to the protocol and leaves no batch open. *)
Definition well_batched (t : list call) : Prop := batching false t = Some false.

(** A method that takes the batch state from [o] to [o'] when it
    returns, and throws only outside a batch. *)
Definition batched {A : Type} (o o' : bool) (m : M A) : Prop :=
  forall s,
    batching o (trace_of (m s))
    = Some (match result_of (m s) with
            | Ok _ => o'
            | Thrown _ => false
            end).

(** Calls that reach the editor. *)
Definition to_editor (c : call) : bool :=
  match c with
  | NvimCall _ _ _ | NvimCommand _ _ | PauseNotification | ResumeNotification
  | SetDocuments _ _ | SetLines _ _ | AddHighlight _ _ => true
  | _ => false
  end.

(** A method that never asks the editor to create the popup window. *)
Definition never_creates {A : Type} (m : M A) : Prop :=
  forall s, creates_popup (trace_of (m s)) = false.

(** The methods that show a popup. *)
Definition shows_popup (m : method) : bool :=
  match m with
  | Create _ _ _ | CreatePopup _ _ _ => true
  | _ => false
  end.


(** The window and buffer a method may leave behind when it does not
    adopt a new popup: those it found, or no window at all. *)
Definition keeps_window (w b : number) (s : Factory) : Prop :=
  bufnr s = b /\ (winid s = w \/ truthy (winid s) = false).

End Floating.

(** ** Child columns of the file and buffer sources *)
Module Column.

Local Open Scope string_scope.

(** A highlight, as the sources' highlight tables hold them: the name of
    the highlight group. *)
Record Highlight : Type := mkHighlight {
  group : string;
}.

(** Modelled from the spec: the row builder handed to [drawNode] (its
    class is not among the sources).  Column drawing is string
    concatenation with highlight spans: a row is the sequence of the
    texts added to it, each with the highlight of its span. *)
Record Cell : Type := mkCell {
  text : string;
  hl : Highlight;
}.

Definition Row : Type := list Cell.

(** [row.add(content, { hl })] *)
Definition add (content : string) (hl : Highlight) (row : Row) : Row :=
  (row ++ [mkCell content hl])%list.

(** The text of a row: its cells, concatenated. *)
Definition row_content (row : Row) : string :=
  fold_right (fun c acc => text c ++ acc) "" row.

(** What [draw()] returns; a column that leaves [labelOnly] or
    [labelVisible] out has [None] there. *)
Record ColumnDraw (Node : Type) : Type := mkDraw {
  labelOnly : option bool;
  labelVisible : option (Node -> bool);
  drawNode : Row -> Node -> Row;
}.
Arguments mkDraw {Node}.
Arguments labelOnly {Node}.
Arguments labelVisible {Node}.
Arguments drawNode {Node}.

(** The fields of a file node and of a buffer node that the two columns
    read. *)
Record FileNode : Type := mkFileNode {
  file_fullpath : string;
  readonly : bool;
}.

Record BufferNode : Type := mkBufferNode {
  fullpath : string;
}.

(** The nerd-font glyph of the readonly column, U+E0A2, in UTF-8. *)
Definition readonly_icon : string :=
  String "238"%char (String "130"%char (String "162"%char EmptyString)).

Section Columns.

(** [fileHighlights.readonly] and [bufferHighlights.fullpath], defined
    with the sources. *)
Variable fileHighlights_readonly : Highlight.
Variable bufferHighlights_fullpath : Highlight.

(** [source.config.get], by key, up to truthiness. *)
Variable config_get : string -> bool.

(** [fileColumnRegistrar.registerColumn('child', 'readonly', ...)] *)
Definition readonly_column : ColumnDraw FileNode :=
  let enabledNerdFont := config_get "icon.enableNerdfont" in
  mkDraw
    (Some true)
    (Some (fun node => readonly node))
    (fun row node =>
       if readonly node then
         add (if readonly node
              then (if enabledNerdFont then readonly_icon else "RO")
              else "")
             fileHighlights_readonly row
       else row).

(** [bufferColumnRegistrar.registerColumn('child', 'fullpath', ...)] *)
Definition fullpath_column : ColumnDraw BufferNode :=
  mkDraw
    None
    None
    (fun row node => add (fullpath node) bufferHighlights_fullpath row).

End Columns.

End Column.

(** ** The list of presets *)
Module Preset.

Local Open Scope string_scope.

#[local] Set Warnings "-register-all".

(** The JavaScript values that occur in list items.  An object is the
    list of its own enumerable properties, in enumeration order. *)
Inductive value : Type :=
| VUndefined
| VStr (s : string)
| VObj (props : list (string * value)).

(** [Object.keys] *)
Definition Object_keys (props : list (string * value)) : list string :=
  map fst props.

Fixpoint lookup (k : string) (props : list (string * value)) : value :=
  match props with
  | [] => VUndefined
  | (k', v) :: rest => if String.eqb k k' then v else lookup k rest
  end.

(** Property access [o.k] for the property names used here ([data],
    [name]); reading a property of [undefined] is a type error. *)
Definition get (o : value) (k : string) : option value :=
  match o with
  | VUndefined => None
  | VStr _ => Some VUndefined
  | VObj props => Some (lookup k props)
  end.

(** Conversion to string inside a template literal. *)
Definition to_string (v : value) : string :=
  match v with
  | VUndefined => "undefined"
  | VStr s => s
  | VObj _ => "[object Object]"
  end.

(** Outcome of an action: the commands sent to the editor, or a type
    error. *)
Inductive action_result : Type :=
| Commands (cmds : list string)
| ActionTypeError.

(** [BasicList], as far as [PresetList] fills it in. *)
Record BasicList : Type := mkList {
  name : string;
  defaultAction : string;
  description : string;
  actions : list (string * (value -> action_result));
}.

(** [this.addAction(name, fn)] *)
Definition addAction (name : string) (fn : value -> action_result)
    (actions : list (string * (value -> action_result)))
    : list (string * (value -> action_result)) :=
  (actions ++ [(name, fn)])%list.

(** The body of the ['do'] action. *)
Definition do_action (item : value) : action_result :=
  match get item "data" with
  | None => ActionTypeError
  | Some data =>
      match get data "name" with
      | None => ActionTypeError
      | Some name =>
          Commands ["CocCommand explorer --preset " ++ to_string name]
      end
  end.

(** [new PresetList(nvim)] *)
Definition PresetList : BasicList :=
  mkList "explPresets" "do" "explorer presets" (addAction "do" do_action []).

(** [loadItems], given the dictionary that [getPresets] resolves to. *)
Definition loadItems (presets : list (string * value)) : list value :=
  map (fun name =>
         VObj [("label", VStr name);
               ("data", VObj [("name", VStr name)])])
      (Object_keys presets).

(** [doHighlight]: the commands it sends. *)
Definition doHighlight : list string :=
  ["syntax match CocExplorerPreset /.*/";
   "highlight default link CocExplorerPreset PreProc"].

(** Running the action registered under a name on an item; [None] when
    no action has that name. *)
Definition run_action (l : BasicList) (action : string) (item : value)
    : option action_result :=
  match find (fun a => String.eqb (fst a) action) (actions l) with
  | Some (_, fn) => Some (fn item)
  | None => None
  end.

End Preset.

(** * Properties *)

(** ** Window geometry *)
Module Geometry.

Import JS Floating.
Local Open Scope string_scope.

(** On integers the relational operators are those of [Z]. *)
Lemma lt_Int (x y : Z) : (Int x <? Int y)%js = (x <? y)%Z.
Proof. reflexivity. Qed.

Lemma ge_Int (x y : Z) : (Int x >=? Int y)%js = (y <=? x)%Z.
Proof. reflexivity. Qed.

Lemma gt_Int (x y : Z) : (Int x >? Int y)%js = (y <? x)%Z.
Proof. reflexivity. Qed.

Ltac run_getWindowConfig H :=
  unfold getWindowConfig, state_of, result_of, trace_of, bind, this, emit, assign, ret;
  rewrite H; cbn [fst snd].

(** C1: next to a container window, [getWindowConfig] stores in
    [this.alignTop] the outcome of fixed comparisons between the cursor
    row, the usable lines [env.lines - env.cmdheight - 1] and the preview
    height: without [preferTop] it is true exactly when
    [lines - winRow < previewHeight] and [winRow > previewHeight]; with
    [preferTop] exactly when [winRow >= previewHeight] or
    [winRow >= lines - winRow]. *)
Theorem getWindowConfig_alignTop :
  forall (h : Host) (docs : list Documentation) (win_position : number * number)
         (s : Factory) (w : Window),
    containerWin h = Some w ->
    let lines := (env_lines (env s) - env_cmdheight (env s) - Int 1)%js in
    let winRow := fst win_position in
    let previewHeight :=
      dim_height
        (getDimension h docs (columns s - win_width w - Int 1)%js
           (JS.min (lines - winRow - Int 1)%js (maxHeight s ||| lines)%js)) in
    let s' := state_of (getWindowConfig h docs win_position s) in
    (preferTop s = false ->
       (alignTop s' = true <->
        (lines - winRow <? previewHeight)%js = true
        /\ (winRow >? previewHeight)%js = true))
    /\ (preferTop s = true ->
       (alignTop s' = true <->
        (winRow >=? previewHeight)%js = true
        \/ (winRow >=? lines - winRow)%js = true)).
Proof.
  intros h docs win_position s w Hw lines0 winRow previewHeight s'.
  assert (Hs' : alignTop s' =
                if negb (preferTop s)
                then (lines0 - winRow <? previewHeight)%js && (winRow >? previewHeight)%js
                else (winRow >=? previewHeight)%js || (winRow >=? lines0 - winRow)%js).
  { subst s'. run_getWindowConfig Hw.
    fold lines0 winRow. unfold Floating.lines. fold lines0. fold previewHeight.
    destruct (preferTop s); cbn [negb].
    - destruct ((winRow >=? previewHeight)%js || (winRow >=? lines0 - winRow)%js);
        repeat match goal with |- context [if ?b then _ else _] => destruct b end;
        reflexivity.
    - destruct ((lines0 - winRow <? previewHeight)%js && (winRow >? previewHeight)%js);
        repeat match goal with |- context [if ?b then _ else _] => destruct b end;
        reflexivity. }
  rewrite Hs'. split; intros Hp; rewrite Hp; cbn [negb].
  - apply andb_true_iff.
  - apply orb_true_iff.
Qed.

Lemma getWindowConfig_alignTop_witness :
  containerWin sample_host = Some (mkWindow (Int 1000) (Int 40))
  /\ alignTop (state_of (getWindowConfig sample_host sample_docs (Int 36, Int 4)
                           sample_factory)) = true.
Proof.
  split; [reflexivity |].
  apply (proj1 (getWindowConfig_alignTop sample_host sample_docs (Int 36, Int 4)
                  sample_factory _ eq_refl)).
  - reflexivity.
  - split; reflexivity.
Defined.

(** C10: the [maxHeight] handed to [FloatBuffer.getDimension] is
    [min(lines - winRow - 1, this.maxHeight || lines)] whatever the
    align-top decision turns out to be: every [getDimension] request of a
    run carries it, and a run next to a container window makes that
    request.  The local [alignTop] is still false where it is read. *)
Theorem getWindowConfig_maxHeight :
  forall (h : Host) (docs : list Documentation) (win_position : number * number)
         (s : Factory),
    let lines := (env_lines (env s) - env_cmdheight (env s) - Int 1)%js in
    let winRow := fst win_position in
    let expected := JS.min (lines - winRow - Int 1)%js (maxHeight s ||| lines)%js in
    let t := trace_of (getWindowConfig h docs win_position s) in
    (forall d mw mh, In (GetDimension d mw mh) t -> mh = expected)
    /\ (forall w, containerWin h = Some w ->
          In (GetDimension docs (columns s - win_width w - Int 1)%js expected) t).
Proof.
  intros h docs win_position s lines0 winRow expected t.
  destruct (containerWin h) as [w |] eqn:Hw.
  - assert (Ht : exists rest,
               t = GetDimension docs (columns s - win_width w - Int 1)%js expected
                   :: rest
               /\ forall d mw mh, ~ In (GetDimension d mw mh) rest).
    { subst t. run_getWindowConfig Hw.
      repeat match goal with
             | |- context [if ?b then _ else _] => destruct b
             end;
        cbn; eexists; (split; [reflexivity |]);
        intros d mw mh Hin; cbn in Hin;
        repeat (destruct Hin as [Hin | Hin]; try discriminate Hin);
        exact Hin. }
    destruct Ht as [rest [Ht Hrest]]. rewrite Ht. split.
    + intros d mw mh [Heq | Hin].
      * inversion Heq. reflexivity.
      * exfalso. exact (Hrest _ _ _ Hin).
    + intros w' Hw'. inversion Hw'. subst w'. left. reflexivity.
  - split.
    + subst t. run_getWindowConfig Hw. intros d mw mh Hin. destruct Hin.
    + intros w' Hw'. discriminate Hw'.
Qed.

Lemma getWindowConfig_maxHeight_witness :
  In (GetDimension sample_docs (Int 79) (Int 25))
     (trace_of (getWindowConfig sample_host sample_docs (Int 12, Int 4)
                  sample_factory)).
Proof.
  exact (proj2 (getWindowConfig_maxHeight sample_host sample_docs (Int 12, Int 4)
                  sample_factory) _ eq_refl).
Defined.

(** C6: next to a container window of width [containerWidth], the column
    of the returned config is [containerWidth] for position ['left'],
    [columns - previewWidth - containerWidth] for ['right'], and for
    ['floating'] it is [floatingCol + containerWidth] with
    ['left-center'], [floatingCol - previewWidth] with ['right-center'],
    while any other floating position returns no config; every other
    position gives column 0. *)
Theorem getWindowConfig_col :
  forall (h : Host) (docs : list Documentation) (win_position : number * number)
         (s : Factory) (w : Window),
    containerWin h = Some w ->
    let lines := lines s in
    let winRow := fst win_position in
    let containerWidth := win_width w in
    let previewWidth :=
      dim_width
        (getDimension h docs (columns s - containerWidth - Int 1)%js
           (JS.min (lines - winRow - Int 1)%js (maxHeight s ||| lines)%js)) in
    let floatingCol := cfg_col (nvim_win_get_config h (win_id w)) in
    let r := result_of (getWindowConfig h docs win_position s) in
    let returns_col (col : number) :=
      exists c, r = Ok (Some c) /\ cfg_col c = col in
    (arg_position h = "left" -> returns_col containerWidth)
    /\ (arg_position h = "right" ->
        returns_col (columns s - previewWidth - containerWidth)%js)
    /\ (arg_position h = "floating" ->
        (arg_floatingPosition h = "left-center" ->
         returns_col (floatingCol + containerWidth)%js)
        /\ (arg_floatingPosition h = "right-center" ->
            returns_col (floatingCol - previewWidth)%js)
        /\ (arg_floatingPosition h <> "left-center" ->
            arg_floatingPosition h <> "right-center" ->
            r = Ok None))
    /\ (arg_position h <> "left" -> arg_position h <> "right" ->
        arg_position h <> "floating" -> returns_col (Int 0)).
Proof.
  intros h docs win_position s w Hw lines0 winRow containerWidth previewWidth
         floatingCol r returns_col.
  subst r returns_col. run_getWindowConfig Hw.
  fold lines0 winRow containerWidth previewWidth floatingCol.
  split; [| split; [| split]].
  - intros Hp. rewrite Hp. cbn. eexists. split; reflexivity.
  - intros Hp. rewrite Hp. cbn. eexists. split; reflexivity.
  - intros Hp. rewrite Hp. cbn. split; [| split].
    + intros Hf. rewrite Hf. cbn. eexists. split; reflexivity.
    + intros Hf. rewrite Hf. cbn. eexists. split; reflexivity.
    + intros Hl Hr.
      apply String.eqb_neq in Hl. apply String.eqb_neq in Hr.
      rewrite Hl, Hr. reflexivity.
  - intros Hl Hr Hf.
    apply String.eqb_neq in Hl. apply String.eqb_neq in Hr.
    apply String.eqb_neq in Hf.
    rewrite Hl, Hr, Hf. cbn. eexists. split; reflexivity.
Qed.

Lemma getWindowConfig_col_witness :
  containerWin sample_host = Some (mkWindow (Int 1000) (Int 40))
  /\ exists c,
       result_of (getWindowConfig sample_host sample_docs (Int 12, Int 4)
                    sample_factory) = Ok (Some c)
       /\ cfg_col c = Int 40.
Proof.
  split; [reflexivity |].
  exact (proj1 (getWindowConfig_col sample_host sample_docs (Int 12, Int 4)
                  sample_factory _ eq_refl) eq_refl).
Defined.

End Geometry.

(** ** Creating and closing the popup *)
Module Popup.

Import JS Floating.
Local Open Scope string_scope.

(** [no_content] says that the list is empty or that every document has
    the empty string as content. *)
Lemma no_content_spec (docs : list Documentation) :
  no_content docs = true <-> docs = [] \/ Forall (fun d => content d = "") docs.
Proof.
  unfold no_content. rewrite orb_true_iff, forallb_forall, Forall_forall.
  split.
  - intros [Hlen | Hall].
    + left. destruct docs; [reflexivity | discriminate Hlen].
    + right. intros d Hd. specialize (Hall d Hd).
      apply Nat.eqb_eq in Hall. destruct (content d); [reflexivity | discriminate Hall].
  - intros [Hnil | Hall].
    + left. rewrite Hnil. reflexivity.
    + right. intros d Hd. rewrite (Hall d Hd). reflexivity.
Qed.

Lemma creates_popup_app (t1 t2 : list call) :
  creates_popup (t1 ++ t2) = creates_popup t1 || creates_popup t2.
Proof. apply existsb_app. Qed.

(** [cancel] returns, touches the token only and sends nothing to the
    editor. *)
Lemma cancel_spec (s : Factory) :
  result_of (cancel s) = Ok tt
  /\ winid (state_of (cancel s)) = winid s
  /\ floatBuffer (state_of (cancel s)) = floatBuffer s
  /\ onCursorMoved (state_of (cancel s)) = onCursorMoved s
  /\ creates_popup (trace_of (cancel s)) = false
  /\ ~ In PauseNotification (trace_of (cancel s)).
Proof.
  unfold cancel, bind, this, emit, assign, ret, result_of, state_of, trace_of.
  destruct (tokenSource s); cbn; repeat split; try reflexivity;
    intros H; repeat (destruct H as [H | H]; try discriminate H); exact H.
Qed.

(** [close] returns; afterwards the factory holds no window, the window
    it held has been closed by the editor, and none was created. *)
Lemma close_spec (h : Host) (s : Factory) :
  let r := close h s in
  result_of r = Ok tt
  /\ truthy (winid (state_of r)) = false
  /\ creates_popup (trace_of r) = false
  /\ (truthy (winid s) = true -> In (close_win (winid s)) (trace_of r)).
Proof.
  unfold close, bind, this, emit, assign, ret, result_of, state_of, trace_of.
  cbn [fst snd].
  pose proof (cancel_spec s) as (Hr & Hw & Hf & Ho & Hc & _).
  unfold result_of, state_of, trace_of in *.
  destruct (cancel s) as [[r0 s0] t0]. cbn [fst snd] in *. subst r0.
  destruct (truthy (winid s)) eqn:Ht.
  - destruct (workspace_isVim h); cbn; rewrite creates_popup_app, Hc; cbn;
      (repeat split; try reflexivity; try assumption;
       intros _; apply in_or_app; right; cbn; auto).
  - cbn. rewrite creates_popup_app, Hc. cbn. rewrite Hw.
    repeat split; try reflexivity; try assumption.
    intros H; discriminate H.
Qed.

(** [getWindowConfig] returns, stores the align-top decision only and
    creates no window. *)
Lemma getWindowConfig_frame (h : Host) (docs : list Documentation)
    (win_position : number * number) (s : Factory) :
  let r := getWindowConfig h docs win_position s in
  (exists c, result_of r = Ok c)
  /\ winid (state_of r) = winid s
  /\ floatBuffer (state_of r) = floatBuffer s
  /\ onCursorMoved (state_of r) = onCursorMoved s
  /\ bufnr (state_of r) = bufnr s
  /\ creates_popup (trace_of r) = false.
Proof.
  unfold getWindowConfig, bind, this, emit, assign, ret, result_of, state_of, trace_of.
  destruct (containerWin h) as [w |]; cbn [fst snd].
  - repeat match goal with
           | |- context [if ?b then _ else _] => destruct b
           end;
      cbn; repeat split; eauto.
  - cbn. repeat split; eauto.
Qed.

(** C9: when [createPopup] gets as far as computing the window config
    and the config has [width <= 0], [height <= 0] or a [NaN] height, it
    closes the float window and returns; the editor is never asked to
    create a window. *)
Theorem createPopup_degenerate_config :
  forall (h : Host) (s : Factory) (docs : list Documentation)
         (highlights : list BufferHighlight) (allowSelection : bool)
         (mode : string) (target : number) (win_position : number * number)
         (config : WindowConfig),
    get_float_mode h allowSelection (alignTop s) (pumAlignTop s)
      = Some (mode, target, win_position) ->
    cancelled h 1 = false ->
    no_content docs = false ->
    result_of
      (getWindowConfig h docs win_position
         (set_targetBufnr (Some target)
            (set_tokenSource (Some (mkTokenSource false)) s)))
      = Ok (Some config) ->
    (cfg_width config <=? Int 0)%js = true
    \/ (cfg_height config <=? Int 0)%js = true
    \/ cfg_height config = NaN ->
    closed_without_popup s (createPopup h docs highlights allowSelection s).
Proof.
  intros h s docs highlights allowSelection mode target win_position config
         Hmode Hcancel Hdocs Hconfig Hbad.
  assert (Hguard : (cfg_width config <=? Int 0)%js
                   || (cfg_height config <=? Int 0)%js
                   || isNaN (cfg_height config) = true).
  { destruct Hbad as [Hb | [Hb | Hb]]; rewrite Hb; cbn;
      rewrite ?orb_true_r; reflexivity. }
  unfold closed_without_popup, createPopup, bind, this, emit, assign, ret.
  cbn [alignTop pumAlignTop set_tokenSource].
  rewrite Hmode, Hcancel, Hdocs.
  set (s1 := set_targetBufnr (Some target)
               (set_tokenSource (Some (mkTokenSource false)) s)) in *.
  pose proof (getWindowConfig_frame h docs win_position s1)
    as (_ & Hw & _ & _ & _ & Hc).
  unfold result_of, state_of, trace_of in *.
  destruct (getWindowConfig h docs win_position s1) as [[r2 s2] t2].
  cbn [fst snd] in *. subst r2. rewrite Hguard.
  pose proof (close_spec h s2) as (Hr3 & Hw3 & Hc3 & Hin3).
  unfold result_of, state_of, trace_of in *.
  destruct (close h s2) as [[r3 s3] t3]. cbn [fst snd] in *.
  replace (winid s2) with (winid s) in Hin3 by (rewrite Hw; reflexivity).
  repeat split.
  - exact Hr3.
  - exact Hw3.
  - cbn [app]. unfold creates_popup in *. cbn [existsb is_create_float_win].
    rewrite existsb_app, Hc, Hc3. reflexivity.
  - intros Ht. cbn [app]. right. apply in_or_app. right. exact (Hin3 Ht).
Qed.

Lemma createPopup_degenerate_config_witness :
  (cfg_height (mkConfig (Int 7) (Int 40) (Int 30) (Int 0) "editor") <=? Int 0)%js = true
  /\ closed_without_popup sample_shown
       (createPopup flat_host sample_docs [] false sample_shown).
Proof.
  split; [reflexivity |].
  apply (createPopup_degenerate_config flat_host sample_shown sample_docs [] false
           "n" (Int 3) (Int 12, Int 4)
           (mkConfig (Int 7) (Int 40) (Int 30) (Int 0) "editor"));
    try reflexivity.
  right. left. reflexivity.
Defined.

(** *** Preservation rules for the monad *)

Section Preserves.

Variable I : Factory -> Prop.

Lemma preserves_ret {A : Type} (a : A) : preserves I (ret a).
Proof. intros s Hs. exact Hs. Qed.

Lemma preserves_this : preserves I this.
Proof. intros s Hs. exact Hs. Qed.

Lemma preserves_emit (c : call) : preserves I (emit c).
Proof. intros s Hs. exact Hs. Qed.

Lemma preserves_throw {A : Type} (e : error) : preserves I (@throw A e).
Proof. intros s Hs. exact Hs. Qed.

Lemma preserves_assign (f : Factory -> Factory) :
  (forall s, I s -> I (f s)) -> preserves I (assign f).
Proof. intros Hf s Hs. exact (Hf s Hs). Qed.

Lemma preserves_bind {A B : Type} (m : M A) (k : A -> M B) :
  preserves I m -> (forall a, preserves I (k a)) -> preserves I (bind m k).
Proof.
  intros Hm Hk s Hs. specialize (Hm s Hs).
  unfold bind, state_of in *.
  destruct (m s) as [[[a | e] s1] t1]; cbn [fst snd] in *.
  - specialize (Hk a s1 Hm). unfold state_of in Hk.
    destruct (k a s1) as [[r s2] t2]. exact Hk.
  - exact Hm.
Qed.

Lemma preserves_try_catch {A : Type} (m : M A) (handler : error -> M A) :
  preserves I m -> (forall e, preserves I (handler e)) ->
  preserves I (try_catch m handler).
Proof.
  intros Hm Hk s Hs. specialize (Hm s Hs).
  unfold try_catch, state_of in *.
  destruct (m s) as [[[a | e] s1] t1]; cbn [fst snd] in *.
  - exact Hm.
  - specialize (Hk e s1 Hm). unfold state_of in Hk.
    destruct (handler e s1) as [[r s2] t2]. exact Hk.
Qed.

Lemma preserves_for_of {A : Type} (xs : list A) (body : A -> M unit) :
  (forall x, preserves I (body x)) -> preserves I (for_of xs body).
Proof.
  intros Hbody. induction xs as [| x rest IH]; cbn [for_of].
  - apply preserves_ret.
  - apply preserves_bind; [apply Hbody | intros _; exact IH].
Qed.

End Preserves.

(** One step of a preservation proof, by the shape of the method. *)
Ltac preserves_step :=
  lazymatch goal with
  | |- preserves _ (bind _ _) => apply preserves_bind; [| intro]
  | |- preserves _ (ret _) => apply preserves_ret
  | |- preserves _ this => apply preserves_this
  | |- preserves _ (emit _) => apply preserves_emit
  | |- preserves _ (throw _) => apply preserves_throw
  | |- preserves _ (try_catch _ _) => apply preserves_try_catch; [| intro]
  | |- preserves _ (for_of _ _) => apply preserves_for_of; intro
  | |- preserves _ (assign _) =>
      apply preserves_assign; intros ? [? ?]; split; assumption
  | |- preserves _ (if ?b then _ else _) => destruct b
  | |- preserves _ (match ?x with _ => _ end) => destruct x
  | |- preserves _ (let _ := _ in _) => cbv zeta
  end.

Ltac preserves_members := repeat preserves_step.

Lemma cancel_members (fb oc : bool) : preserves (members fb oc) cancel.
Proof. unfold cancel. preserves_members. Qed.

Lemma close_members (fb oc : bool) (h : Host) : preserves (members fb oc) (close h).
Proof. unfold close. pose proof (cancel_members fb oc). preserves_members; assumption. Qed.

Lemma getWindowConfig_members (fb oc : bool) (h : Host) (docs : list Documentation)
    (win_position : number * number) :
  preserves (members fb oc) (getWindowConfig h docs win_position).
Proof. unfold getWindowConfig. preserves_members. Qed.

Lemma createPopup_members (fb oc : bool) (h : Host) (docs : list Documentation)
    (highlights : list BufferHighlight) (allowSelection : bool) :
  preserves (members fb oc) (createPopup h docs highlights allowSelection).
Proof.
  unfold createPopup, floatBuffer_setDocuments, onCursorMoved_cancel.
  pose proof (close_members fb oc h).
  pose proof (getWindowConfig_members fb oc h docs).
  preserves_members; auto.
Qed.

Lemma create_members (fb oc : bool) (h : Host) (docs : list Documentation)
    (highlights : list BufferHighlight) (allowSelection : bool) :
  preserves (members fb oc) (create h docs highlights allowSelection).
Proof.
  unfold create, onCursorMoved_cancel.
  pose proof (close_members fb oc h).
  pose proof (cancel_members fb oc).
  pose proof (createPopup_members fb oc h docs highlights allowSelection).
  preserves_members; auto.
Qed.

(** No method assigns [floatBuffer] or [onCursorMoved]. *)
Lemma run_members (fb oc : bool) (h : Host) (m : method) :
  preserves (members fb oc) (run h m).
Proof.
  pose proof (close_members fb oc h).
  destruct m; cbn [run].
  - apply create_members.
  - apply createPopup_members.
  - apply preserves_bind; [apply getWindowConfig_members | intro; apply preserves_ret].
  - assumption.
  - unfold dispose. preserves_members.
  - unfold on_BufEnter. preserves_members; assumption.
  - unfold on_MenuPopupChanged. preserves_members; assumption.
  - unfold _onCursorMoved. preserves_members; assumption.
Qed.

(** *** The session invariant *)

Lemma close_no_window (h : Host) (s : Factory) :
  truthy (winid (state_of (close h s))) = false.
Proof. exact (proj1 (proj2 (close_spec h s))). Qed.

(** Without its [floatBuffer] member, [createPopup] fails before it asks
    for a window. *)
Lemma createPopup_no_floatBuffer (h : Host) (docs : list Documentation)
    (highlights : list BufferHighlight) (allowSelection : bool) (s : Factory) :
  floatBuffer s = false ->
  truthy (winid s) = false ->
  truthy (winid (state_of (createPopup h docs highlights allowSelection s))) = false.
Proof.
  intros Hfb Hwin.
  unfold createPopup, bind, this, emit, assign, ret.
  cbn [alignTop pumAlignTop floatBuffer set_tokenSource].
  rewrite Hfb.
  destruct (get_float_mode h allowSelection (alignTop s) (pumAlignTop s))
    as [[[mode target] win_position] |]; [| exact Hwin].
  destruct (cancelled h 1); [exact Hwin |].
  destruct (no_content docs).
  - pose proof (close_no_window h (set_tokenSource (Some (mkTokenSource false)) s)) as Hc.
    unfold state_of in *.
    destruct (close h _) as [[r1 s1] t1]. exact Hc.
  - set (s1 := set_targetBufnr (Some target)
                 (set_tokenSource (Some (mkTokenSource false)) s)).
    pose proof (getWindowConfig_frame h docs win_position s1)
      as ([c Hres] & Hw & _).
    unfold result_of, state_of in *.
    destruct (getWindowConfig h docs win_position s1) as [[r2 s2] t2].
    cbn [fst snd] in *. subst r2.
    assert (Hwin2 : truthy (winid s2) = false) by (rewrite Hw; exact Hwin).
    destruct c as [config |]; [| exact Hwin2].
    destruct ((cfg_width config <=? Int 0)%js
              || (cfg_height config <=? Int 0)%js
              || isNaN (cfg_height config)).
    + pose proof (close_no_window h s2) as Hc. unfold state_of in Hc.
      destruct (close h s2) as [[r3 s3] t3]. exact Hc.
    + exact Hwin2.
Qed.

(** Establish: the constructor. *)
Lemma constructor_constructed (h : Host) (env : Env) (preferTop : bool)
    (maxHeight : number) (maxWidth : option number) (autoHide : bool) :
  constructed (supportedFloat h)
    (constructor h env preferTop maxHeight maxWidth autoHide).
Proof. repeat split. Qed.

(** Preserve: every method, under the same float support. *)
Lemma run_constructed (h : Host) (m : method) (s : Factory) :
  constructed (supportedFloat h) s ->
  constructed (supportedFloat h) (state_of (run h m s)).
Proof.
  intros (Hfb & Hoc & Hwin).
  destruct (run_members _ _ h m s (conj Hfb Hoc)) as [Hfb' Hoc'].
  split; [exact Hfb' | split; [exact Hoc' |]].
  intros Hfloat. specialize (Hwin Hfloat). rewrite Hfloat in Hfb.
  pose proof (close_no_window h) as Hclose.
  destruct m as [docs highlights allowSelection | docs highlights allowSelection
                | docs win_position | | | bufnr0 | ev_row cursorline |];
    cbn [run].
  - unfold create. rewrite Hfloat. exact Hwin.
  - apply createPopup_no_floatBuffer; assumption.
  - pose proof (getWindowConfig_frame h docs win_position s) as (_ & Hw & _).
    unfold bind, ret, state_of in *.
    destruct (getWindowConfig h docs win_position s) as [[[c | e] s1] t1];
      cbn [fst snd] in *; rewrite Hw; exact Hwin.
  - apply Hclose.
  - unfold dispose, bind, this, emit, state_of.
    destruct (tokenSource s); exact Hwin.
  - unfold on_BufEnter, bind, this.
    destruct (JS.eqb bufnr0 (bufnr s) || is_targetBufnr bufnr0 s).
    + exact Hwin.
    + specialize (Hclose s). unfold state_of in *.
      destruct (close h s) as [[r1 s1] t1]. exact Hclose.
  - unfold on_MenuPopupChanged, bind, this, assign.
    destruct (Bool.eqb (cursorline >? ev_row)%js _).
    + specialize (Hclose (set_pumAlignTop (cursorline >? ev_row)%js s)).
      unfold state_of in *.
      destruct (close h _) as [[r1 s1] t1]. exact Hclose.
    + exact Hwin.
  - unfold _onCursorMoved, bind, this.
    repeat match goal with
           | |- context [if ?b then _ else _] => destruct b
           end;
      try exact Hwin;
      specialize (Hclose s); unfold state_of in *;
      destruct (close h s) as [[r1 s1] t1]; exact Hclose.
Qed.

(** Use: every reachable state satisfies the invariant. *)
Lemma reachable_constructed (float : bool) (s : Factory) :
  reachable float s -> constructed float s.
Proof.
  induction 1 as [h env preferTop maxHeight maxWidth autoHide Hfloat
                 | h m s Hfloat Hreach IH].
  - rewrite <- Hfloat. apply constructor_constructed.
  - rewrite <- Hfloat in *. apply run_constructed. exact IH.
Qed.

(** C8: when the documents are none or all empty, [create] closes the
    float window the factory holds and returns without creating a popup;
    likewise the recheck in [createPopup], once the float mode has been
    obtained and the token is still live. *)
Theorem create_without_content :
  forall (h : Host) (s : Factory) (docs : list Documentation)
         (highlights : list BufferHighlight) (allowSelection : bool),
    reachable (supportedFloat h) s ->
    docs = [] \/ Forall (fun d => content d = "") docs ->
    closed_without_popup s (create h docs highlights allowSelection s)
    /\ (forall mode target win_position,
          get_float_mode h allowSelection (alignTop s) (pumAlignTop s)
            = Some (mode, target, win_position) ->
          cancelled h 1 = false ->
          closed_without_popup s (createPopup h docs highlights allowSelection s)).
Proof.
  intros h s docs highlights allowSelection Hreach Hdocs.
  apply no_content_spec in Hdocs.
  apply reachable_constructed in Hreach. destruct Hreach as (Hfb & Hoc & Hwin).
  split.
  - unfold closed_without_popup, create, onCursorMoved_cancel, bind, this, emit.
    destruct (supportedFloat h) eqn:Hfloat; cbn [negb].
    + rewrite Hoc, Hdocs.
      pose proof (close_spec h s) as (Hr & Hw & Hc & Hin).
      unfold result_of, state_of, trace_of in *.
      destruct (close h s) as [[r1 s1] t1]. cbn [fst snd app] in *.
      repeat split; try assumption.
      intros Ht. right. exact (Hin Ht).
    + specialize (Hwin eq_refl). cbn. repeat split; try assumption.
      intros Ht. rewrite Hwin in Ht. discriminate Ht.
  - intros mode target win_position Hmode Hcancel.
    unfold closed_without_popup, createPopup, bind, this, emit, assign, ret.
    cbn [alignTop pumAlignTop set_tokenSource].
    rewrite Hmode, Hcancel, Hdocs.
    pose proof (close_spec h (set_tokenSource (Some (mkTokenSource false)) s))
      as (Hr & Hw & Hc & Hin).
    unfold result_of, state_of, trace_of in *.
    destruct (close h _) as [[r1 s1] t1]. cbn [fst snd app] in *.
    repeat split; try assumption.
    intros Ht. right. exact (Hin Ht).
Qed.

Lemma sample_shown_reachable : reachable true sample_shown.
Proof.
  unfold sample_shown.
  apply (reachable_run true sample_host); [reflexivity |].
  apply (reachable_new true sample_host); reflexivity.
Qed.

Lemma create_without_content_witness :
  truthy (winid sample_shown) = true
  /\ closed_without_popup sample_shown (create sample_host [] [] false sample_shown).
Proof.
  split; [reflexivity |].
  apply (create_without_content sample_host sample_shown [] [] false).
  - exact sample_shown_reachable.
  - left. reflexivity.
Defined.

End Popup.

(** ** Column drawing *)
Module ColumnDrawing.

Import Column.
Local Open Scope string_scope.

Lemma row_content_add (content : string) (h : Highlight) (row : Row) :
  row_content (add content h row) = row_content row ++ content.
Proof.
  unfold add, row_content. induction row as [| c rest IH]; cbn.
  - induction content as [| a content IHc]; cbn; [reflexivity | f_equal; exact IHc].
  - rewrite IH. clear IH.
    induction (text c) as [| a t IHt]; cbn; [reflexivity | f_equal; exact IHt].
Qed.

(** C4: the ['readonly'] child column of the file source adds one cell
    with the readonly highlight exactly when the node is readonly, the
    text being the nerd-font glyph when ['icon.enableNerdfont'] is on and
    ['RO'] otherwise; a node that is not readonly leaves the row as it
    is.  The column is [labelOnly] and its [labelVisible] is
    [node.readonly]. *)
Theorem readonly_column_draw :
  forall (fileHighlights_readonly : Highlight) (config_get : string -> bool)
         (row : Row) (node : FileNode),
    let column := readonly_column fileHighlights_readonly config_get in
    let marker :=
      mkCell (if config_get "icon.enableNerdfont" then readonly_icon else "RO")
             fileHighlights_readonly in
    (readonly node = true -> drawNode column row node = (row ++ [marker])%list)
    /\ (readonly node = false -> drawNode column row node = row)
    /\ (drawNode column row node <> row <-> readonly node = true)
    /\ labelOnly column = Some true
    /\ exists visible,
         labelVisible column = Some visible
         /\ forall n, visible n = readonly n.
Proof.
  intros hlr config_get row node column marker.
  subst column marker. unfold readonly_column. cbn [drawNode labelOnly labelVisible].
  split; [| split; [| split; [| split]]].
  - intros Hro. rewrite Hro. reflexivity.
  - intros Hro. rewrite Hro. reflexivity.
  - destruct (readonly node); split.
    + reflexivity.
    + intros _ Heq. unfold add in Heq.
      apply (f_equal (@length Cell)) in Heq.
      rewrite length_app in Heq. cbn in Heq. lia.
    + intros Hneq. exfalso. apply Hneq. reflexivity.
    + intros Hf. discriminate Hf.
  - reflexivity.
  - eexists. split; [reflexivity | reflexivity].
Qed.

Lemma readonly_column_draw_witness :
  drawNode (readonly_column (mkHighlight "CocExplorerFileReadonly") (fun _ => false))
    [] (mkFileNode "/etc/passwd" true)
  = [mkCell "RO" (mkHighlight "CocExplorerFileReadonly")].
Proof.
  exact (proj1 (readonly_column_draw (mkHighlight "CocExplorerFileReadonly")
                  (fun _ => false) [] (mkFileNode "/etc/passwd" true)) eq_refl).
Defined.

(** C5: the ['fullpath'] child column of the buffer source adds, for
    every node, one cell holding the node's [fullpath] with the
    [bufferHighlights.fullpath] highlight, and nothing else: the text of
    the row grows by exactly that string. *)
Theorem fullpath_column_draw :
  forall (bufferHighlights_fullpath : Highlight) (row : Row) (node : BufferNode),
    let column := fullpath_column bufferHighlights_fullpath in
    drawNode column row node
      = (row ++ [mkCell (fullpath node) bufferHighlights_fullpath])%list
    /\ row_content (drawNode column row node) = row_content row ++ fullpath node.
Proof.
  intros hlf row node column. subst column.
  unfold fullpath_column. cbn [drawNode]. split.
  - reflexivity.
  - apply row_content_add.
Qed.

End ColumnDrawing.

(** ** The preset list *)
Module PresetListing.

Import Preset.
Local Open Scope string_scope.

(** C2: [loadItems] returns one item per key of the presets dictionary,
    in key order; the item at the place of key [k] is an object with the
    two properties [label], equal to [k], and [data], itself an object
    whose only property [name] equals [k]. *)
Theorem loadItems_keys :
  forall (presets : list (string * value)),
    length (loadItems presets) = length (Object_keys presets)
    /\ forall (i : nat) (k : string),
         nth_error (Object_keys presets) i = Some k ->
         exists props data,
           nth_error (loadItems presets) i = Some (VObj props)
           /\ Object_keys props = ["label"; "data"]
           /\ lookup "label" props = VStr k
           /\ lookup "data" props = VObj data
           /\ Object_keys data = ["name"]
           /\ lookup "name" data = VStr k.
Proof.
  intros presets. unfold loadItems. split.
  - apply length_map.
  - intros i k Hk.
    exists [("label", VStr k); ("data", VObj [("name", VStr k)])],
           [("name", VStr k)].
    split; [| repeat split].
    rewrite nth_error_map, Hk. reflexivity.
Qed.

Lemma loadItems_keys_witness :
  exists props data,
    nth_error (loadItems [("floating", VObj []); ("tab", VObj [])]) 1
      = Some (VObj props)
    /\ Object_keys props = ["label"; "data"]
    /\ lookup "label" props = VStr "tab"
    /\ lookup "data" props = VObj data
    /\ Object_keys data = ["name"]
    /\ lookup "name" data = VStr "tab".
Proof.
  exact (proj2 (loadItems_keys [("floating", VObj []); ("tab", VObj [])])
           1%nat "tab" eq_refl).
Defined.

(** C3: the default action of [PresetList] is ['do'], and on an item
    whose [data.name] is the string [n] it sends exactly the command
    ['CocCommand explorer --preset ' ++ n]; this is what happens for
    every item that [loadItems] produced, [n] being its key. *)
Theorem PresetList_do :
  defaultAction PresetList = "do"
  /\ (forall (item data : value) (n : string),
        get item "data" = Some data ->
        get data "name" = Some (VStr n) ->
        run_action PresetList (defaultAction PresetList) item
          = Some (Commands ["CocCommand explorer --preset " ++ n]))
  /\ (forall (presets : list (string * value)) (item : value),
        In item (loadItems presets) ->
        exists n,
          In n (Object_keys presets)
          /\ run_action PresetList "do" item
             = Some (Commands ["CocCommand explorer --preset " ++ n])).
Proof.
  split; [reflexivity | split].
  - intros item data n Hdata Hname.
    change (run_action PresetList (defaultAction PresetList) item)
      with (Some (do_action item)).
    unfold do_action. rewrite Hdata, Hname. reflexivity.
  - intros presets item Hin. unfold loadItems in Hin.
    apply in_map_iff in Hin. destruct Hin as [n [Hitem Hn]].
    exists n. split; [exact Hn |]. subst item. reflexivity.
Qed.

Lemma PresetList_do_witness :
  run_action PresetList "do"
    (VObj [("label", VStr "floating"); ("data", VObj [("name", VStr "floating")])])
  = Some (Commands ["CocCommand explorer --preset floating"]).
Proof.
  exact (proj1 (proj2 PresetList_do)
           (VObj [("label", VStr "floating"); ("data", VObj [("name", VStr "floating")])])
           (VObj [("name", VStr "floating")]) "floating" eq_refl eq_refl).
Defined.

End PresetListing.

(** ** Notification batches of the factory *)
Module Batching.

Import JS Floating.
Local Open Scope string_scope.

Lemma batching_app (o : bool) (t1 t2 : list call) :
  batching o (t1 ++ t2)
  = match batching o t1 with
    | Some o1 => batching o1 t2
    | None => None
    end.
Proof.
  revert o. induction t1 as [| c rest IH]; intros o; cbn [app batching].
  - reflexivity.
  - destruct (batch_step o c) as [o1 |]; [apply IH | reflexivity].
Qed.

Section Rules.

Context {A : Type}.

Lemma batched_ret (o : bool) (a : A) : batched o o (ret a).
Proof. intros s. reflexivity. Qed.

Lemma batched_throw (o' : bool) (e : error) : batched false o' (@throw A e).
Proof. intros s. reflexivity. Qed.

Lemma batched_bind {B : Type} (o o1 o2 : bool) (m : M A) (k : A -> M B) :
  batched o o1 m -> (forall a, batched o1 o2 (k a)) -> batched o o2 (bind m k).
Proof.
  intros Hm Hk s. specialize (Hm s).
  unfold bind, result_of, trace_of in *.
  destruct (m s) as [[[a | e] s1] t1]; cbn [fst snd] in *.
  - specialize (Hk a s1). unfold result_of, trace_of in Hk.
    destruct (k a s1) as [[r s2] t2]. cbn [fst snd] in *.
    rewrite batching_app, Hm. exact Hk.
  - exact Hm.
Qed.

Lemma batched_try_catch (o o' : bool) (m : M A) (handler : error -> M A) :
  batched o o' m -> (forall e, batched false o' (handler e)) ->
  batched o o' (try_catch m handler).
Proof.
  intros Hm Hk s. specialize (Hm s).
  unfold try_catch, result_of, trace_of in *.
  destruct (m s) as [[[a | e] s1] t1]; cbn [fst snd] in *.
  - exact Hm.
  - specialize (Hk e s1). unfold result_of, trace_of in Hk.
    destruct (handler e s1) as [[r s2] t2]. cbn [fst snd] in *.
    rewrite batching_app, Hm. exact Hk.
Qed.

End Rules.

Lemma batched_this (o : bool) : batched o o this.
Proof. intros s. reflexivity. Qed.

Lemma batched_assign (o : bool) (f : Factory -> Factory) : batched o o (assign f).
Proof. intros s. reflexivity. Qed.

Lemma batched_emit (o o' : bool) (c : call) :
  batch_step o c = Some o' -> batched o o' (emit c).
Proof. intros Hc s. cbn. rewrite Hc. reflexivity. Qed.

Lemma batched_for_of {A : Type} (xs : list A) (body : A -> M unit) :
  (forall x, batched true true (body x)) -> batched true true (for_of xs body).
Proof.
  intros Hbody. induction xs as [| x rest IH]; cbn [for_of].
  - apply batched_ret.
  - eapply batched_bind; [apply Hbody | intros _; exact IH].
Qed.

(** One step of a batching proof, by the shape of the method. *)
Ltac batched_step :=
  lazymatch goal with
  | |- batched _ _ (bind _ _) => eapply batched_bind; [| intro]
  | |- batched _ _ (ret _) => apply batched_ret
  | |- batched _ _ this => apply batched_this
  | |- batched _ _ (assign _) => apply batched_assign
  | |- batched _ _ (emit _) => apply batched_emit; reflexivity
  | |- batched _ _ (throw _) => apply batched_throw
  | |- batched _ _ (try_catch _ _) => eapply batched_try_catch; [| intro]
  | |- batched _ _ (for_of _ _) => apply batched_for_of; intro
  | |- batched _ _ (if ?b then _ else _) => destruct b
  | |- batched _ _ (match ?x with _ => _ end) => destruct x
  | |- batched _ _ (let _ := _ in _) => cbv zeta
  end.

Lemma cancel_batched (o : bool) : batched o o cancel.
Proof. unfold cancel. repeat batched_step. Qed.

Lemma close_batched (h : Host) : batched false false (close h).
Proof.
  unfold close. pose proof (cancel_batched false) as Hcancel.
  eapply batched_bind; [apply batched_this | intro s0; cbv zeta].
  eapply batched_bind; [exact Hcancel | intros _].
  repeat batched_step.
Qed.

Lemma getWindowConfig_batched (h : Host) (docs : list Documentation)
    (win_position : number * number) :
  batched false false (getWindowConfig h docs win_position).
Proof. unfold getWindowConfig. repeat batched_step. Qed.

Lemma createPopup_batched (h : Host) (docs : list Documentation)
    (highlights : list BufferHighlight) (allowSelection : bool) :
  batched false false (createPopup h docs highlights allowSelection).
Proof.
  pose proof (close_batched h) as Hclose.
  pose proof (getWindowConfig_batched h docs) as Hconfig.
  unfold createPopup, floatBuffer_setDocuments, onCursorMoved_cancel.
  repeat first [ exact Hclose | apply Hconfig | batched_step ].
Qed.

Lemma create_batched (h : Host) (docs : list Documentation)
    (highlights : list BufferHighlight) (allowSelection : bool) :
  batched false false (create h docs highlights allowSelection).
Proof.
  pose proof (close_batched h) as Hclose.
  pose proof (cancel_batched false) as Hcancel.
  pose proof (createPopup_batched h docs highlights allowSelection) as Hpopup.
  unfold create, onCursorMoved_cancel.
  repeat first [ exact Hclose | exact Hcancel | exact Hpopup | batched_step ].
Qed.

(** X1: whatever the editor answers and whether the method returns or
    throws, the calls of a method keep to the batch protocol: every
    [pauseNotification] is followed by its [resumeNotification] before
    the method ends, batches are not nested, notifications are sent
    inside a batch only and requests outside only. *)
Theorem run_well_batched :
  forall (h : Host) (m : method) (s : Factory),
    well_batched (trace_of (run h m s)).
Proof.
  intros h m s.
  assert (Hm : batched false false (run h m)).
  { pose proof (close_batched h) as Hclose.
    destruct m as [docs highlights allowSelection | docs highlights allowSelection
                  | docs win_position | | | b | ev_row cursorline |];
      cbn [run].
    - apply create_batched.
    - apply createPopup_batched.
    - eapply batched_bind; [apply getWindowConfig_batched | intro; apply batched_ret].
    - exact Hclose.
    - unfold dispose. repeat batched_step.
    - unfold on_BufEnter. repeat first [ exact Hclose | batched_step ].
    - unfold on_MenuPopupChanged. repeat first [ exact Hclose | batched_step ].
    - unfold _onCursorMoved. repeat first [ exact Hclose | batched_step ]. }
  unfold well_batched. rewrite (Hm s).
  destruct (result_of (run h m s)); reflexivity.
Qed.

End Batching.

(** ** Sessions of the factory *)
Module Session.

Import JS Floating.
Local Open Scope string_scope.

(** What [close] does, case by case. *)
Lemma close_run (h : Host) (s : Factory) :
  close h s
  = (Ok tt,
     (let s' := match tokenSource s with
                | Some _ => set_tokenSource None s
                | None => s
                end in
      if truthy (winid s) then set_winid (Int 0) s' else s'),
     ((match tokenSource s with
       | Some _ => [TokenCancel]
       | None => []
       end)
      ++ (if truthy (winid s)
          then [PauseNotification; close_win (winid s)]
               ++ (if workspace_isVim h then [NvimCommand "redraw" true] else [])
               ++ [ResumeNotification]
          else []))%list).
Proof.
  unfold close, cancel, bind, this, emit, assign, ret.
  destruct (tokenSource s); destruct (truthy (winid s));
    destruct (workspace_isVim h); reflexivity.
Qed.

(** X2: closing twice is harmless: a second [close], whatever the editor
    is, returns without any call and leaves the factory as the first
    left it. *)
Theorem close_idempotent :
  forall (h h' : Host) (s : Factory),
    close h' (state_of (close h s)) = (Ok tt, state_of (close h s), []).
Proof.
  intros h h' s. rewrite (close_run h s). unfold state_of. cbn [fst snd].
  rewrite close_run.
  destruct (tokenSource s) eqn:Htoken; destruct (truthy (winid s)) eqn:Hwin;
    cbn [tokenSource winid set_winid set_tokenSource truthy Z.eqb negb app];
    rewrite ?Htoken, ?Hwin; reflexivity.
Qed.

(** X3: without a window, [close] sends nothing to the editor: it only
    cancels and drops the pending token, and the window and buffer
    numbers stay as they are. *)
Theorem close_without_window :
  forall (h : Host) (s : Factory),
    truthy (winid s) = false ->
    let r := close h s in
    existsb to_editor (trace_of r) = false
    /\ tokenSource (state_of r) = None
    /\ winid (state_of r) = winid s
    /\ bufnr (state_of r) = bufnr s.
Proof.
  intros h s Hwin r. subst r. rewrite close_run, Hwin.
  unfold state_of, trace_of. cbn [fst snd].
  destruct (tokenSource s) eqn:Htoken; cbn; auto.
Qed.

Lemma close_without_window_witness :
  existsb to_editor (trace_of (close sample_host sample_factory)) = false.
Proof.
  exact (proj1 (close_without_window sample_host sample_factory eq_refl)).
Defined.

(** [createPopup] returns [tt] or throws; [close] and [cancel] return. *)
Lemma close_returns (h : Host) (s : Factory) : result_of (close h s) = Ok tt.
Proof. rewrite close_run. reflexivity. Qed.

Lemma close_state_no_window (h : Host) (s : Factory) :
  truthy (winid (state_of (close h s))) = false.
Proof.
  rewrite close_run. unfold state_of. cbn [fst snd].
  destruct (tokenSource s); destruct (truthy (winid s)) eqn:Hwin;
    cbn; try reflexivity; exact Hwin.
Qed.



(** How [create] runs once it is past its two guards. *)
Lemma create_with_content (h : Host) (s : Factory) (docs : list Documentation)
    (highlights : list BufferHighlight) (allowSelection : bool) :
  supportedFloat h = true ->
  onCursorMoved s = true ->
  no_content docs = false ->
  let rp := createPopup h docs highlights allowSelection (state_of (cancel s)) in
  create h docs highlights allowSelection s
  = match result_of rp with
    | Ok a =>
        (Ok a, state_of rp,
         (OnCursorMovedCancel :: trace_of (cancel s) ++ trace_of rp)%list)
    | Thrown e =>
        (Ok tt, state_of (close h (state_of rp)),
         (OnCursorMovedCancel :: trace_of (cancel s) ++ trace_of rp
            ++ Log "error" ("Error on create popup: " ++ message_of e)
            :: trace_of (close h (state_of rp)))%list)
    end.
Proof.
  intros Hfloat Hoc Hdocs rp. subst rp.
  unfold create, onCursorMoved_cancel, bind, this, emit, try_catch.
  rewrite Hfloat. cbn [negb]. rewrite Hoc, Hdocs.
  assert (Hcancel : result_of (cancel s) = Ok tt)
    by (unfold cancel, bind, this, emit, assign, ret; destruct (tokenSource s);
        reflexivity).
  unfold result_of, state_of, trace_of in *.
  destruct (cancel s) as [[r0 s0] t0]. cbn [fst snd] in *. subst r0.
  destruct (createPopup h docs highlights allowSelection s0)
    as [[[a | e] s1] t1]; cbn [fst snd app].
  - reflexivity.
  - pose proof (close_returns h s1) as Hr. unfold result_of in Hr.
    destruct (close h s1) as [[r2 s2] t2]. cbn [fst snd app] in *. subst r2.
    reflexivity.
Qed.

(** X5: when [createPopup] throws, [create] logs the message, closes the
    window the factory holds at that moment and returns; no window is
    left. *)
Theorem create_failure_closes :
  forall (h : Host) (s : Factory) (docs : list Documentation)
         (highlights : list BufferHighlight) (allowSelection : bool) (e : error),
    supportedFloat h = true ->
    onCursorMoved s = true ->
    no_content docs = false ->
    let rp := createPopup h docs highlights allowSelection (state_of (cancel s)) in
    result_of rp = Thrown e ->
    let r := create h docs highlights allowSelection s in
    result_of r = Ok tt
    /\ truthy (winid (state_of r)) = false
    /\ In (Log "error" ("Error on create popup: " ++ message_of e)) (trace_of r)
    /\ (truthy (winid (state_of rp)) = true ->
        In (close_win (winid (state_of rp))) (trace_of r)).
Proof.
  intros h s docs highlights allowSelection e Hfloat Hoc Hdocs rp Hthrown r.
  subst r. rewrite (create_with_content h s docs highlights allowSelection
                      Hfloat Hoc Hdocs).
  fold rp. rewrite Hthrown. unfold result_of, state_of, trace_of. cbn [fst snd].
  split; [reflexivity | split; [apply close_state_no_window | split]].
  - right. apply in_or_app. right. apply in_or_app. right. left. reflexivity.
  - intros Hwin. right. apply in_or_app. right. apply in_or_app. right. right.
    exact (proj2 (proj2 (proj2 (Popup.close_spec h (snd (fst rp))))) Hwin).
Qed.

Lemma create_failure_closes_witness :
  In (Log "error" "Error on create popup: Error on nvim_command: 0 - E492")
     (trace_of (create failing_host sample_docs [] false sample_factory))
  /\ In (close_win (Int 1001))
        (trace_of (create failing_host sample_docs [] false sample_factory)).
Proof.
  pose proof (create_failure_closes failing_host sample_factory sample_docs [] false
                (Error "Error on nvim_command: 0 - E492")
                eq_refl eq_refl eq_refl eq_refl) as (_ & _ & Hlog & Hclose).
  split; [exact Hlog | exact (Hclose eq_refl)].
Defined.

(** Running a bind whose first action is a primitive. *)
Lemma trace_bind_emit {B : Type} (c : call) (k : unit -> M B) (s : Factory) :
  trace_of (bind (emit c) k s) = c :: trace_of (k tt s).
Proof.
  unfold bind, emit, trace_of. destruct (k tt s) as [[r s2] t2]. reflexivity.
Qed.

Lemma trace_bind_assign {B : Type} (f : Factory -> Factory) (k : unit -> M B)
    (s : Factory) :
  trace_of (bind (assign f) k s) = trace_of (k tt (f s)).
Proof.
  unfold bind, assign, trace_of. destruct (k tt (f s)) as [[r s2] t2]. reflexivity.
Qed.

Lemma trace_bind_this {B : Type} (k : Factory -> M B) (s : Factory) :
  trace_of (bind this k s) = trace_of (k s s).
Proof.
  unfold bind, this, trace_of. destruct (k s s) as [[r s2] t2]. reflexivity.
Qed.

(** [createPopup] begins by asking the editor for the float mode, with
    the alignment flags the factory holds. *)
Lemma createPopup_head (h : Host) (docs : list Documentation)
    (highlights : list BufferHighlight) (allowSelection : bool) (s : Factory) :
  exists rest,
    trace_of (createPopup h docs highlights allowSelection s)
    = NvimCall "coc#util#get_float_mode"
        [ABool allowSelection; ABool (alignTop s); ABool (pumAlignTop s)] false
      :: rest.
Proof.
  unfold createPopup.
  rewrite trace_bind_assign, trace_bind_this. cbv zeta.
  rewrite trace_bind_emit. eexists. reflexivity.
Qed.

(** X6: a new [create] first cancels the debounced cursor handler and
    the token of the popup in flight, and only then asks the editor for
    the float mode. *)
Theorem create_cancels_pending :
  forall (h : Host) (s : Factory) (docs : list Documentation)
         (highlights : list BufferHighlight) (allowSelection : bool)
         (pending : TokenSource),
    supportedFloat h = true ->
    onCursorMoved s = true ->
    no_content docs = false ->
    tokenSource s = Some pending ->
    exists rest,
      trace_of (create h docs highlights allowSelection s)
      = OnCursorMovedCancel
        :: TokenCancel
        :: NvimCall "coc#util#get_float_mode"
             [ABool allowSelection; ABool (alignTop s); ABool (pumAlignTop s)] false
        :: rest.
Proof.
  intros h s docs highlights allowSelection pending Hfloat Hoc Hdocs Htoken.
  pose proof (create_with_content h s docs highlights allowSelection
                Hfloat Hoc Hdocs) as Hrun.
  assert (Hcancel : cancel s = (Ok tt, set_tokenSource None s, [TokenCancel])).
  { unfold cancel, bind, this, emit, assign, ret. rewrite Htoken. reflexivity. }
  cbv zeta in Hrun. rewrite Hcancel in Hrun.
  change (state_of (Ok tt, set_tokenSource None s, [TokenCancel]))
    with (set_tokenSource None s) in Hrun.
  change (trace_of (Ok tt, set_tokenSource None s, [TokenCancel]))
    with [TokenCancel] in Hrun.
  rewrite Hrun.
  destruct (createPopup_head h docs highlights allowSelection
              (set_tokenSource None s)) as [rest Hrest].
  cbn [alignTop pumAlignTop set_tokenSource] in Hrest.
  destruct (result_of (createPopup h docs highlights allowSelection
                         (set_tokenSource None s)));
    unfold trace_of at 1; cbn [snd app]; rewrite Hrest; cbn [app];
    eexists; reflexivity.
Qed.

Lemma create_cancels_pending_witness :
  exists rest,
    trace_of (create sample_host sample_docs [] false sample_shown)
    = OnCursorMovedCancel
      :: TokenCancel
      :: NvimCall "coc#util#get_float_mode" [ABool false; ABool false; ABool false]
           false
      :: rest.
Proof.
  exact (create_cancels_pending sample_host sample_shown sample_docs [] false
           (mkTokenSource false) eq_refl eq_refl eq_refl eq_refl).
Defined.

(** [getWindowConfig] leaves the target buffer as it is. *)
Lemma getWindowConfig_targetBufnr (h : Host) (docs : list Documentation)
    (win_position : number * number) (s : Factory) :
  targetBufnr (snd (fst (getWindowConfig h docs win_position s))) = targetBufnr s.
Proof.
  unfold getWindowConfig, bind, this, emit, assign, ret.
  destruct (containerWin h) as [w |]; cbn [fst snd]; [| reflexivity].
  repeat match goal with
         | |- context [if ?b then _ else _] => destruct b
         end; reflexivity.
Qed.

Lemma for_of_emit {A : Type} (f : A -> call) (xs : list A) (s : Factory) :
  for_of xs (fun x => emit (f x)) s = (Ok tt, s, map f xs).
Proof.
  induction xs as [| x rest IH]; cbn [for_of map].
  - reflexivity.
  - unfold bind. unfold emit at 1. rewrite IH. reflexivity.
Qed.

Lemma for_of_emitted {A : Type} (f : A -> call) (xs : list A) (s : Factory) :
  for_of xs (fun x s' => (Ok tt, s', [f x])) s = (Ok tt, s, map f xs).
Proof. exact (for_of_emit f xs s). Qed.

Lemma positive_passes_guard (a : number) :
  (a >? Int 0)%js = true -> (a <=? Int 0)%js = false /\ isNaN a = false.
Proof.
  destruct a as [z |]; cbn; [| discriminate].
  intros Hz. split; [| reflexivity].
  apply Z.ltb_lt in Hz. apply Z.leb_gt. exact Hz.
Qed.

(** The calls that fill the popup between [pauseNotification] and
    [resumeNotification], as [createPopup] issues them. *)
Lemma createPopup_success_run (h : Host) (s : Factory) (docs : list Documentation)
    (highlights : list BufferHighlight) (allowSelection : bool)
    (mode : string) (target : number) (win_position : number * number)
    (config : WindowConfig) (w b : number) :
  get_float_mode h allowSelection (alignTop s) (pumAlignTop s)
    = Some (mode, target, win_position) ->
  cancelled h 1 = false -> cancelled h 2 = false -> cancelled h 3 = false ->
  no_content docs = false ->
  floatBuffer s = true -> onCursorMoved s = true ->
  let rc := getWindowConfig h docs win_position
              (set_targetBufnr (Some target)
                 (set_tokenSource (Some (mkTokenSource false)) s)) in
  result_of rc = Ok (Some config) ->
  (cfg_width config >? Int 0)%js = true ->
  (cfg_height config >? Int 0)%js = true ->
  create_float_win h (winid s) (bufnr s) config = Some (w, b) ->
  resume_error h = None ->
  let showBottom := alignTop s && (1 <? length docs)%nat in
  createPopup h docs highlights allowSelection s
  = (Ok tt, set_bufnr b (set_winid w (state_of rc)),
     (NvimCall "coc#util#get_float_mode"
        [ABool allowSelection; ABool (alignTop s); ABool (pumAlignTop s)] false
      :: trace_of rc
      ++ [SetDocuments docs (cfg_width config);
          NvimCall "coc#util#create_float_win"
            [ANum (winid s); ANum (bufnr s); AConfig config] false;
          PauseNotification]
      ++ (if workspace_isNvim h then
            [NvimCommand ("noa call win_gotoid(" ++ to_string w ++ ")") true;
             SetLines b None]
            ++ map (AddHighlight b) highlights
            ++ [NvimCommand (normal_cmd showBottom) true;
                NvimCommand "noa wincmd p" true]
          else
            [SetLines b (Some w)]
            ++ map (AddHighlight b) highlights
            ++ [NvimCall "win_execute" [ANum w; AStr (normal_cmd showBottom)] true;
                NvimCommand "redraw" true])
      ++ [ResumeNotification]
      ++ (if String.eqb mode "s" && negb (cancelled h 4)
          then [SelectCurrentPlaceholder false; Delay 50] else [])
      ++ [OnCursorMovedCancel])%list).
Proof.
  intros Hmode Hc1 Hc2 Hc3 Hdocs Hfb Hoc rc Hconfig Hwidth Hheight Hwin Herr
         showBottom.
  destruct (positive_passes_guard _ Hwidth) as [Hw0 _].
  destruct (positive_passes_guard _ Hheight) as [Hh0 Hnan].
  unfold createPopup, floatBuffer_setDocuments, onCursorMoved_cancel,
    bind, this, emit, assign, ret.
  cbn [alignTop pumAlignTop floatBuffer set_tokenSource].
  rewrite Hmode, Hc1, Hdocs, Hfb.
  pose proof (Popup.getWindowConfig_frame h docs win_position
                (set_targetBufnr (Some target)
                   (set_tokenSource (Some (mkTokenSource false)) s)))
    as (_ & Hw & _ & Hoc2 & Hb & _).
  fold rc in Hw, Hoc2, Hb |- *.
  unfold result_of, state_of, trace_of in *.
  destruct rc as [[r2 s2] t2]. cbn [fst snd] in *. subst r2.
  cbn [winid bufnr onCursorMoved set_targetBufnr set_tokenSource] in Hw, Hb, Hoc2.
  rewrite Hw0, Hh0, Hnan. cbn [orb]. rewrite Hc2, Hw, Hb, Hwin, Hc3.
  fold showBottom.
  destruct (workspace_isNvim h); rewrite for_of_emitted; cbv beta iota;
    rewrite Herr;
    destruct (String.eqb mode "s" && negb (cancelled h 4)); cbv beta iota;
    cbn [onCursorMoved set_bufnr set_winid]; rewrite Hoc2, Hoc;
    cbn [app]; repeat rewrite <- app_assoc; reflexivity.
Qed.

(** X7: when nothing stands in the way (a float mode, a live token,
    documents with content, a config of positive size, no batch error),
    [createPopup] returns having adopted the window and buffer the
    editor created and the target buffer of the float mode, and the
    request it made carried the window and buffer it held before. *)
Theorem createPopup_adopts_window :
  forall (h : Host) (s : Factory) (docs : list Documentation)
         (highlights : list BufferHighlight) (allowSelection : bool)
         (mode : string) (target : number) (win_position : number * number)
         (config : WindowConfig) (w b : number),
    get_float_mode h allowSelection (alignTop s) (pumAlignTop s)
      = Some (mode, target, win_position) ->
    cancelled h 1 = false -> cancelled h 2 = false -> cancelled h 3 = false ->
    no_content docs = false ->
    floatBuffer s = true -> onCursorMoved s = true ->
    result_of
      (getWindowConfig h docs win_position
         (set_targetBufnr (Some target)
            (set_tokenSource (Some (mkTokenSource false)) s)))
      = Ok (Some config) ->
    (cfg_width config >? Int 0)%js = true ->
    (cfg_height config >? Int 0)%js = true ->
    create_float_win h (winid s) (bufnr s) config = Some (w, b) ->
    resume_error h = None ->
    let r := createPopup h docs highlights allowSelection s in
    result_of r = Ok tt
    /\ winid (state_of r) = w
    /\ bufnr (state_of r) = b
    /\ targetBufnr (state_of r) = Some target
    /\ In (NvimCall "coc#util#create_float_win"
             [ANum (winid s); ANum (bufnr s); AConfig config] false)
          (trace_of r).
Proof.
  intros h s docs highlights allowSelection mode target win_position config w b
         Hmode Hc1 Hc2 Hc3 Hdocs Hfb Hoc Hconfig Hwidth Hheight Hwin Herr r.
  subst r.
  rewrite (createPopup_success_run h s docs highlights allowSelection mode target
             win_position config w b Hmode Hc1 Hc2 Hc3 Hdocs Hfb Hoc Hconfig
             Hwidth Hheight Hwin Herr).
  unfold result_of, state_of, trace_of. cbn [fst snd].
  split; [reflexivity | split; [reflexivity | split; [reflexivity | split]]].
  - cbn [targetBufnr set_bufnr set_winid].
    pose proof (getWindowConfig_targetBufnr h docs win_position
                  (set_targetBufnr (Some target)
                     (set_tokenSource (Some (mkTokenSource false)) s))) as Ht.
    exact Ht.
  - right. apply in_or_app. right. cbn. auto.
Qed.

Lemma createPopup_adopts_window_witness :
  winid (state_of (createPopup sample_host sample_docs [] false sample_factory))
    = Int 1001
  /\ bufnr (state_of (createPopup sample_host sample_docs [] false sample_factory))
     = Int 9.
Proof.
  pose proof (createPopup_adopts_window sample_host sample_factory sample_docs []
                false "n" (Int 3) (Int 12, Int 4)
                (mkConfig (Int 7) (Int 40) (Int 30) (Int 5) "editor")
                (Int 1001) (Int 9)
                eq_refl eq_refl eq_refl eq_refl eq_refl eq_refl eq_refl eq_refl
                eq_refl eq_refl eq_refl eq_refl) as (_ & Hw & Hb & _).
  split; [exact Hw | exact Hb].
Defined.






(** *** Methods that create no window *)

Section NeverCreates.

Context {A : Type}.

Lemma never_creates_ret (a : A) : never_creates (ret a).
Proof. intros s. reflexivity. Qed.

Lemma never_creates_throw (e : error) : never_creates (@throw A e).
Proof. intros s. reflexivity. Qed.

Lemma never_creates_bind {B : Type} (m : M A) (k : A -> M B) :
  never_creates m -> (forall a, never_creates (k a)) -> never_creates (bind m k).
Proof.
  intros Hm Hk s. specialize (Hm s). unfold bind, trace_of in *.
  destruct (m s) as [[[a | e] s1] t1]; cbn [fst snd] in *.
  - specialize (Hk a s1). unfold trace_of in Hk.
    destruct (k a s1) as [[r s2] t2]. cbn [fst snd] in *.
    rewrite Popup.creates_popup_app, Hm, Hk. reflexivity.
  - exact Hm.
Qed.

Lemma never_creates_try_catch (m : M A) (handler : error -> M A) :
  never_creates m -> (forall e, never_creates (handler e)) ->
  never_creates (try_catch m handler).
Proof.
  intros Hm Hk s. specialize (Hm s). unfold try_catch, trace_of in *.
  destruct (m s) as [[[a | e] s1] t1]; cbn [fst snd] in *.
  - exact Hm.
  - specialize (Hk e s1). unfold trace_of in Hk.
    destruct (handler e s1) as [[r s2] t2]. cbn [fst snd] in *.
    rewrite Popup.creates_popup_app, Hm, Hk. reflexivity.
Qed.

End NeverCreates.

Lemma never_creates_this : never_creates this.
Proof. intros s. reflexivity. Qed.

Lemma never_creates_assign (f : Factory -> Factory) : never_creates (assign f).
Proof. intros s. reflexivity. Qed.

Lemma never_creates_emit (c : call) :
  is_create_float_win c = false -> never_creates (emit c).
Proof. intros Hc s. cbn. rewrite Hc. reflexivity. Qed.

Lemma never_creates_for_of {A : Type} (xs : list A) (body : A -> M unit) :
  (forall x, never_creates (body x)) -> never_creates (for_of xs body).
Proof.
  intros Hbody. induction xs as [| x rest IH]; cbn [for_of].
  - apply never_creates_ret.
  - apply never_creates_bind; [apply Hbody | intros _; exact IH].
Qed.

Ltac never_creates_step :=
  lazymatch goal with
  | |- never_creates (bind _ _) => apply never_creates_bind; [| intro]
  | |- never_creates (ret _) => apply never_creates_ret
  | |- never_creates this => apply never_creates_this
  | |- never_creates (assign _) => apply never_creates_assign
  | |- never_creates (emit _) => apply never_creates_emit; reflexivity
  | |- never_creates (throw _) => apply never_creates_throw
  | |- never_creates (try_catch _ _) => apply never_creates_try_catch; [| intro]
  | |- never_creates (for_of _ _) => apply never_creates_for_of; intro
  | |- never_creates (if ?b then _ else _) => destruct b
  | |- never_creates (match ?x with _ => _ end) => destruct x
  | |- never_creates (let _ := _ in _) => cbv zeta
  end.

Lemma cancel_never_creates : never_creates cancel.
Proof. unfold cancel. repeat never_creates_step. Qed.

Lemma close_never_creates (h : Host) : never_creates (close h).
Proof.
  unfold close. pose proof cancel_never_creates as Hcancel.
  repeat first [ exact Hcancel | never_creates_step ].
Qed.

Lemma getWindowConfig_never_creates (h : Host) (docs : list Documentation)
    (win_position : number * number) :
  never_creates (getWindowConfig h docs win_position).
Proof. unfold getWindowConfig. repeat never_creates_step. Qed.

(** The methods that are not meant to show a popup create no window. *)
Lemma quiet_methods_never_create (h : Host) (m : method) :
  shows_popup m = false -> never_creates (run h m).
Proof.
  intros Hm.
  pose proof (close_never_creates h) as Hclose.
  destruct m as [docs highlights allowSelection | docs highlights allowSelection
                | docs win_position | | | b | ev_row cursorline |];
    try discriminate Hm; cbn [run].
  - apply never_creates_bind;
      [apply getWindowConfig_never_creates | intro; apply never_creates_ret].
  - exact Hclose.
  - unfold dispose. repeat never_creates_step.
  - unfold on_BufEnter. repeat first [ exact Hclose | never_creates_step ].
  - unfold on_MenuPopupChanged. repeat first [ exact Hclose | never_creates_step ].
  - unfold _onCursorMoved. repeat first [ exact Hclose | never_creates_step ].
Qed.

(** X9: only [create] and [createPopup] can ask the editor for a popup
    window; closing, disposing, computing the window config and the
    three event handlers never do. *)
Theorem only_create_creates :
  forall (h : Host) (m : method) (s : Factory),
    shows_popup m = false ->
    creates_popup (trace_of (run h m s)) = false.
Proof.
  intros h m s Hm. exact (quiet_methods_never_create h m Hm s).
Qed.

Lemma only_create_creates_witness :
  creates_popup (trace_of (run sample_host CursorMoved sample_shown)) = false.
Proof.
  exact (only_create_creates sample_host CursorMoved sample_shown eq_refl).
Defined.

(** Without its [floatBuffer] member, [createPopup] never reaches the
    request for a window. *)
Lemma createPopup_no_floatBuffer_trace (h : Host) (docs : list Documentation)
    (highlights : list BufferHighlight) (allowSelection : bool) (s : Factory) :
  floatBuffer s = false ->
  creates_popup (trace_of (createPopup h docs highlights allowSelection s)) = false.
Proof.
  intros Hfb.
  pose proof (close_never_creates h) as Hclose.
  unfold createPopup, bind, this, emit, assign, ret.
  cbn [alignTop pumAlignTop floatBuffer set_tokenSource]. rewrite Hfb.
  destruct (get_float_mode h allowSelection (alignTop s) (pumAlignTop s))
    as [[[mode target] win_position] |]; [| reflexivity].
  destruct (cancelled h 1); [reflexivity |].
  destruct (no_content docs).
  - specialize (Hclose (set_tokenSource (Some (mkTokenSource false)) s)).
    unfold trace_of in *. destruct (close h _) as [[r1 s1] t1]. exact Hclose.
  - set (s1 := set_targetBufnr (Some target)
                 (set_tokenSource (Some (mkTokenSource false)) s)).
    pose proof (getWindowConfig_never_creates h docs win_position s1) as Hc.
    pose proof (Popup.getWindowConfig_frame h docs win_position s1)
      as ([c Hres] & _).
    unfold result_of, trace_of in *.
    destruct (getWindowConfig h docs win_position s1) as [[r2 s2] t2].
    cbn [fst snd] in *. subst r2.
    destruct c as [config |]; [| cbn; rewrite Popup.creates_popup_app, Hc; reflexivity].
    destruct ((cfg_width config <=? Int 0)%js
              || (cfg_height config <=? Int 0)%js
              || isNaN (cfg_height config)).
    + specialize (Hclose s2). unfold trace_of in Hclose.
      destruct (close h s2) as [[r3 s3] t3]. cbn [fst snd app] in *.
      cbn [creates_popup existsb is_create_float_win String.eqb].
      unfold creates_popup in *. cbn. rewrite existsb_app, Hc, Hclose. reflexivity.
    + unfold floatBuffer_setDocuments, throw. cbn [fst snd app].
      unfold creates_popup in *. cbn. rewrite existsb_app, Hc. reflexivity.
Qed.

(** X10: in a session without float support the factory never asks for a
    popup window and never holds one, whatever method runs. *)
Theorem no_popup_without_float :
  forall (h : Host) (m : method) (s : Factory),
    reachable false s ->
    supportedFloat h = false ->
    creates_popup (trace_of (run h m s)) = false
    /\ truthy (winid (state_of (run h m s))) = false.
Proof.
  intros h m s Hreach Hfloat.
  apply Popup.reachable_constructed in Hreach.
  split.
  - destruct Hreach as (Hfb & _).
    destruct (shows_popup m) eqn:Hm;
      [| exact (quiet_methods_never_create h m Hm s)].
    destruct m as [docs highlights allowSelection | docs highlights allowSelection
                  | docs win_position | | | b | ev_row cursorline |];
      try discriminate Hm; cbn [run].
    + unfold create. rewrite Hfloat. reflexivity.
    + apply createPopup_no_floatBuffer_trace. exact Hfb.
  - rewrite <- Hfloat in Hreach.
    destruct (Popup.run_constructed h m s Hreach) as (_ & _ & Hwin).
    exact (Hwin Hfloat).
Qed.

Lemma no_popup_without_float_witness :
  creates_popup
    (trace_of (run plain_host (CreatePopup sample_docs [] false)
                 (constructor_default plain_host sample_env)))
  = false.
Proof.
  refine (proj1 (no_popup_without_float plain_host
                   (CreatePopup sample_docs [] false) _ _ eq_refl)).
  apply (reachable_new false plain_host). reflexivity.
Defined.

(** X11: when the editor gives no float mode, or the token is cancelled
    while it is asked, [createPopup] returns having only replaced the
    token: window, buffers and alignment are untouched and the float
    mode request is the only call. *)
Theorem createPopup_stops_early :
  forall (h : Host) (s : Factory) (docs : list Documentation)
         (highlights : list BufferHighlight) (allowSelection : bool),
    get_float_mode h allowSelection (alignTop s) (pumAlignTop s) = None
    \/ cancelled h 1 = true ->
    createPopup h docs highlights allowSelection s
    = (Ok tt, set_tokenSource (Some (mkTokenSource false)) s,
       [NvimCall "coc#util#get_float_mode"
          [ABool allowSelection; ABool (alignTop s); ABool (pumAlignTop s)] false]).
Proof.
  intros h s docs highlights allowSelection Hearly.
  unfold createPopup, bind, this, emit, assign, ret.
  cbn [alignTop pumAlignTop set_tokenSource].
  destruct (get_float_mode h allowSelection (alignTop s) (pumAlignTop s))
    as [[[mode target] win_position] |]; [| reflexivity].
  destruct Hearly as [Hnone | Hcancel]; [discriminate Hnone |].
  rewrite Hcancel. reflexivity.
Qed.

Lemma createPopup_stops_early_witness :
  winid (state_of (createPopup busy_host sample_docs [] false sample_shown))
  = Int 1001.
Proof.
  rewrite (createPopup_stops_early busy_host sample_shown sample_docs [] false
             (or_introl eq_refl)).
  reflexivity.
Defined.

(** *** Cancellation while the popup is built *)

Lemma close_keeps_window (w b : number) (h : Host) :
  preserves (keeps_window w b) (close h).
Proof.
  intros s [Hb Hw]. rewrite close_run. unfold state_of. cbn [fst snd].
  destruct (tokenSource s); destruct (truthy (winid s)) eqn:Hwin; split;
    cbn; auto.
Qed.

Lemma getWindowConfig_keeps_window (w b : number) (h : Host)
    (docs : list Documentation) (win_position : number * number) :
  preserves (keeps_window w b) (getWindowConfig h docs win_position).
Proof.
  intros s [Hb Hw].
  pose proof (Popup.getWindowConfig_frame h docs win_position s)
    as (_ & Hw' & _ & _ & Hb' & _).
  split; [rewrite Hb'; exact Hb | rewrite Hw'; exact Hw].
Qed.

Ltac keeps_window_step :=
  lazymatch goal with
  | |- preserves _ (bind _ _) => apply Popup.preserves_bind; [| intro]
  | |- preserves _ (ret _) => apply Popup.preserves_ret
  | |- preserves _ this => apply Popup.preserves_this
  | |- preserves _ (emit _) => apply Popup.preserves_emit
  | |- preserves _ (throw _) => apply Popup.preserves_throw
  | |- preserves _ (for_of _ _) => apply Popup.preserves_for_of; intro
  | |- preserves _ (assign _) =>
      apply Popup.preserves_assign; intros ? [? ?]; split; assumption
  | |- preserves _ (if ?b then _ else _) => destruct b
  | |- preserves _ (match ?x with _ => _ end) => destruct x
  | |- preserves _ (let _ := _ in _) => cbv zeta
  end.

(** X12: a popup whose token is cancelled while its documents are set or
    while the editor creates its window is not adopted: the factory
    keeps the buffer number it had and the window it had (or none), and
    when the cancellation comes while the documents are set the editor
    is not even asked for a window. *)
Theorem createPopup_cancelled :
  forall (h : Host) (s : Factory) (docs : list Documentation)
         (highlights : list BufferHighlight) (allowSelection : bool),
    cancelled h 2 = true \/ cancelled h 3 = true ->
    let r := createPopup h docs highlights allowSelection s in
    keeps_window (winid s) (bufnr s) (state_of r)
    /\ (cancelled h 2 = true -> creates_popup (trace_of r) = false).
Proof.
  intros h s docs highlights allowSelection Hcancel r. subst r.
  pose proof (close_keeps_window (winid s) (bufnr s) h) as Hclose.
  pose proof (getWindowConfig_keeps_window (winid s) (bufnr s) h docs) as Hconfig.
  pose proof (close_never_creates h) as Hclose'.
  pose proof (getWindowConfig_never_creates h docs) as Hconfig'.
  split.
  - assert (Hkeep : preserves (keeps_window (winid s) (bufnr s))
                      (createPopup h docs highlights allowSelection)).
    { unfold createPopup, floatBuffer_setDocuments, onCursorMoved_cancel.
      destruct Hcancel as [Hc | Hc]; rewrite Hc;
        repeat first [ exact Hclose | apply Hconfig | keeps_window_step ]. }
    apply Hkeep. split; [reflexivity | left; reflexivity].
  - intros Hc.
    assert (Hnever : never_creates (createPopup h docs highlights allowSelection)).
    { unfold createPopup, floatBuffer_setDocuments, onCursorMoved_cancel.
      rewrite Hc.
      repeat first [ exact Hclose' | apply Hconfig' | never_creates_step ]. }
    apply Hnever.
Qed.

Lemma createPopup_cancelled_witness :
  winid (state_of (createPopup racing_host sample_docs [] false sample_shown))
  = Int 1001.
Proof.
  destruct (createPopup_cancelled racing_host sample_shown sample_docs [] false
              (or_intror eq_refl))
    as [[_ [Hw | Hw]] _].
  - exact Hw.
  - discriminate Hw.
Defined.

End Session.

(** ** The event handlers *)
Module Handlers.

Import JS Floating.
Local Open Scope string_scope.

Lemma close_closes (h : Host) (s : Factory) :
  truthy (winid (state_of (close h s))) = false.
Proof. exact (proj1 (proj2 (Popup.close_spec h s))). Qed.

(** X13: an open popup survives [BufEnter] exactly when the buffer
    entered is the popup's own or the target buffer; in that case the
    handler does nothing at all. *)
Theorem BufEnter_keeps_popup :
  forall (h : Host) (b : number) (s : Factory),
    truthy (winid s) = true ->
    let kept := JS.eqb b (bufnr s) = true \/ is_targetBufnr b s = true in
    (truthy (winid (state_of (on_BufEnter h b s))) = true <-> kept)
    /\ (kept -> on_BufEnter h b s = (Ok tt, s, [])).
Proof.
  intros h b s Hwin kept. subst kept.
  unfold on_BufEnter, bind, this, ret.
  rewrite <- orb_true_iff.
  destruct (JS.eqb b (bufnr s) || is_targetBufnr b s) eqn:Hkeep.
  - cbn. split; [split; auto | reflexivity].
  - split.
    + pose proof (close_closes h s) as Hc. unfold state_of in *.
      destruct (close h s) as [[r1 s1] t1]. cbn [fst snd] in *. rewrite Hc.
      split; intros H; discriminate H.
    + intros H. discriminate H.
Qed.

Lemma BufEnter_keeps_popup_witness :
  on_BufEnter sample_host (Int 9) sample_shown = (Ok tt, sample_shown, []).
Proof.
  exact (proj2 (BufEnter_keeps_popup sample_host (Int 9) sample_shown eq_refl)
           (or_introl eq_refl)).
Defined.

(** X14: an open popup survives a cursor move exactly when the cursor is
    in the popup's own buffer, or when [autoHide] is off and the editor
    is in insert mode in the target buffer. *)
Theorem CursorMoved_keeps_popup :
  forall (h : Host) (s : Factory),
    truthy (winid s) = true ->
    (truthy (winid (state_of (_onCursorMoved h s))) = true
     <-> JS.eqb (workspace_bufnr h) (bufnr s) = true
         \/ (autoHide s = false
             /\ workspace_insertMode h = true
             /\ is_targetBufnr (workspace_bufnr h) s = true)).
Proof.
  intros h s Hwin.
  unfold _onCursorMoved, bind, this, ret.
  pose proof (close_closes h s) as Hc. unfold state_of in *.
  destruct (JS.eqb (workspace_bufnr h) (bufnr s)); cbn [fst snd].
  - split; auto.
  - destruct (autoHide s).
    + destruct (close h s) as [[r1 s1] t1]. cbn [fst snd] in *. rewrite Hc.
      split; [intros H; discriminate H |].
      intros [H | (H & _)]; discriminate H.
    + destruct (workspace_insertMode h); cbn [negb orb].
      * destruct (is_targetBufnr (workspace_bufnr h) s); cbn [negb].
        -- cbn [fst snd]. split; auto.
        -- destruct (close h s) as [[r1 s1] t1]. cbn [fst snd] in *. rewrite Hc.
           split; [intros H; discriminate H |].
           intros [H | (_ & _ & H)]; discriminate H.
      * destruct (close h s) as [[r1 s1] t1]. cbn [fst snd] in *. rewrite Hc.
        split; [intros H; discriminate H |].
        intros [H | (_ & H & _)]; discriminate H.
Qed.

Lemma CursorMoved_keeps_popup_witness :
  truthy (winid (state_of (_onCursorMoved sample_host sample_shown))) = false.
Proof.
  destruct (truthy (winid (state_of (_onCursorMoved sample_host sample_shown))))
    eqn:Hkept; [| reflexivity].
  destruct (proj1 (CursorMoved_keeps_popup sample_host sample_shown eq_refl) Hkept)
    as [H | (H & _)]; discriminate H.
Defined.

(** X15: [MenuPopupChanged] records whether the completion menu is above
    the cursor line, and an open popup survives it exactly when the menu
    and the popup are on different sides. *)
Theorem MenuPopupChanged_keeps_popup :
  forall (h : Host) (ev_row cursorline : number) (s : Factory),
    let s' := state_of (on_MenuPopupChanged h ev_row cursorline s) in
    pumAlignTop s' = (cursorline >? ev_row)%js
    /\ (truthy (winid s) = true ->
        (truthy (winid s') = true <-> (cursorline >? ev_row)%js <> alignTop s)).
Proof.
  intros h ev_row cursorline s s'. subst s'.
  unfold on_MenuPopupChanged, bind, this, assign, ret.
  cbn [alignTop set_pumAlignTop].
  set (s1 := set_pumAlignTop (cursorline >? ev_row)%js s).
  pose proof (close_closes h s1) as Hc.
  assert (Hpum : pumAlignTop (state_of (close h s1)) = (cursorline >? ev_row)%js).
  { rewrite Session.close_run. unfold state_of. cbn [fst snd].
    destruct (tokenSource s1); destruct (truthy (winid s1)); reflexivity. }
  unfold state_of in *.
  destruct (Bool.eqb (cursorline >? ev_row)%js (alignTop s)) eqn:Heq.
  - destruct (close h s1) as [[r1 s2] t1]. cbn [fst snd] in *.
    split; [exact Hpum |]. intros _. rewrite Hc.
    apply Bool.eqb_prop in Heq.
    split; [intros H; discriminate H | intros H; contradiction].
  - cbn [fst snd]. split; [reflexivity |]. intros Hwin.
    apply Bool.eqb_false_iff in Heq. split; auto.
Qed.

Lemma MenuPopupChanged_keeps_popup_witness :
  truthy (winid (state_of (on_MenuPopupChanged sample_host (Int 5) (Int 9)
                             sample_shown))) = true.
Proof.
  apply (proj2 (MenuPopupChanged_keeps_popup sample_host (Int 5) (Int 9)
                  sample_shown) eq_refl).
  intros H. discriminate H.
Defined.

End Handlers.

(** ** More on the window config *)
Module Placement.

Import JS Floating.
Local Open Scope string_scope.

Ltac run_config H :=
  unfold getWindowConfig, state_of, result_of, trace_of, bind, this, emit, assign, ret;
  rewrite H; cbn [fst snd].

(** X16: [getWindowConfig] returns no config exactly when the container
    window is missing, or the explorer floats at a position other than
    ['left-center'] and ['right-center'].  Without a container window it
    asks nothing and leaves the factory, its align-top flag included, as
    it is. *)
Theorem getWindowConfig_void :
  forall (h : Host) (docs : list Documentation) (win_position : number * number)
         (s : Factory),
    (result_of (getWindowConfig h docs win_position s) = Ok None
     <-> containerWin h = None
         \/ (arg_position h = "floating"
             /\ arg_floatingPosition h <> "left-center"
             /\ arg_floatingPosition h <> "right-center"))
    /\ (containerWin h = None ->
        getWindowConfig h docs win_position s = (Ok None, s, [])).
Proof.
  intros h docs win_position s.
  destruct (containerWin h) as [w |] eqn:Hw.
  - split; [| intros H; discriminate H].
    run_config Hw.
    destruct (String.eqb_spec (arg_position h) "left") as [Hl | Hl].
    { cbn. split; [intros H; discriminate H |].
      intros [H | (H & _)]; [discriminate H |]. rewrite H in Hl. discriminate Hl. }
    destruct (String.eqb_spec (arg_position h) "right") as [Hr | Hr].
    { cbn. split; [intros H; discriminate H |].
      intros [H | (H & _)]; [discriminate H |]. rewrite H in Hr. discriminate Hr. }
    destruct (String.eqb_spec (arg_position h) "floating") as [Hf | Hf].
    + cbn [fst snd].
      destruct (String.eqb_spec (arg_floatingPosition h) "left-center") as [Hlc | Hlc].
      { cbn. split; [intros H; discriminate H |].
        intros [H | (_ & H & _)]; [discriminate H | contradiction]. }
      destruct (String.eqb_spec (arg_floatingPosition h) "right-center") as [Hrc | Hrc].
      { cbn. split; [intros H; discriminate H |].
        intros [H | (_ & _ & H)]; [discriminate H | contradiction]. }
      cbn. split; [intros _; right; auto | reflexivity].
    + cbn. split; [intros H; discriminate H |].
      intros [H | (H & _)]; [discriminate H | contradiction].
  - assert (Hrun : getWindowConfig h docs win_position s = (Ok None, s, [])).
    { unfold getWindowConfig, bind, this, ret. rewrite Hw. reflexivity. }
    split; [| intros _; exact Hrun].
    rewrite Hrun. cbn. split; auto.
Qed.

Lemma getWindowConfig_void_witness :
  getWindowConfig bare_host sample_docs (Int 12, Int 4) sample_shown
  = (Ok None, sample_shown, []).
Proof.
  exact (proj2 (getWindowConfig_void bare_host sample_docs (Int 12, Int 4)
                  sample_shown) eq_refl).
Defined.

(** X17: a config that [getWindowConfig] returns has the width and
    height that [FloatBuffer.getDimension] answered and is relative to
    the editor; its row is the explorer line on screen,
    [currentLineIndex - topline + 1], moved up by [previewHeight - 1]
    when the align-top flag was just set, plus the row of the explorer
    window when the explorer floats. *)
Theorem getWindowConfig_size_and_row :
  forall (h : Host) (docs : list Documentation) (win_position : number * number)
         (s : Factory) (w : Window) (config : WindowConfig),
    containerWin h = Some w ->
    result_of (getWindowConfig h docs win_position s) = Ok (Some config) ->
    let lines := lines s in
    let winRow := fst win_position in
    let dim :=
      getDimension h docs (columns s - win_width w - Int 1)%js
        (JS.min (lines - winRow - Int 1)%js (maxHeight s ||| lines)%js) in
    let s' := state_of (getWindowConfig h docs win_position s) in
    let row :=
      (explorer_currentLineIndex h - topline (winsaveview h) + Int 1
       + (if alignTop s' then - dim_height dim + Int 1 else Int 0))%js in
    cfg_width config = dim_width dim
    /\ cfg_height config = dim_height dim
    /\ cfg_relative config = "editor"
    /\ cfg_row config
       = if String.eqb (arg_position h) "floating"
         then (row + cfg_row (nvim_win_get_config h (win_id w)))%js
         else row.
Proof.
  intros h docs win_position s w config Hw Hres lines0 winRow dim s' row.
  subst s' row. revert Hres. run_config Hw. fold lines0 winRow dim.
  destruct (String.eqb_spec (arg_position h) "left") as [Hl | Hl].
  { rewrite Hl. cbn. intros Hres. inversion Hres. cbn. auto. }
  destruct (String.eqb_spec (arg_position h) "right") as [Hr | Hr].
  { rewrite Hr. cbn. intros Hres. inversion Hres. cbn. auto. }
  destruct (String.eqb (arg_position h) "floating").
  - cbn [fst snd].
    destruct (String.eqb (arg_floatingPosition h) "left-center").
    { cbn. intros Hres. inversion Hres. cbn. auto. }
    destruct (String.eqb (arg_floatingPosition h) "right-center").
    { cbn. intros Hres. inversion Hres. cbn. auto. }
    cbn. intros Hres. discriminate Hres.
  - cbn. intros Hres. inversion Hres. cbn. auto.
Qed.

Lemma getWindowConfig_size_and_row_witness :
  cfg_row (mkConfig (Int 3) (Int 40) (Int 30) (Int 5) "editor")
  = (Int 7 - Int 1 + Int 1 + (- Int 5 + Int 1))%js.
Proof.
  exact (proj2 (proj2 (proj2
           (getWindowConfig_size_and_row sample_host sample_docs (Int 36, Int 4)
              sample_factory (mkWindow (Int 1000) (Int 40))
              (mkConfig (Int 3) (Int 40) (Int 30) (Int 5) "editor")
              eq_refl eq_refl)))).
Defined.

(** X18: with integer dimensions, the height that [getWindowConfig]
    allows the preview never exceeds the lines below the cursor row,
    nor the maximal height of the factory when that is not zero. *)
Theorem getWindowConfig_height_budget :
  forall (h : Host) (docs : list Documentation) (s : Factory)
         (total cmdheight winRow winCol limit : Z)
         (d : list Documentation) (mw mh : number),
    env_lines (env s) = Int total ->
    env_cmdheight (env s) = Int cmdheight ->
    maxHeight s = Int limit ->
    In (GetDimension d mw mh)
       (trace_of (getWindowConfig h docs (Int winRow, Int winCol) s)) ->
    exists height : Z,
      mh = Int height
      /\ (height <= total - cmdheight - 1 - winRow - 1)%Z
      /\ (limit <> 0%Z -> (height <= limit)%Z).
Proof.
  intros h docs s total cmdheight winRow winCol limit d mw mh
         Htotal Hcmd Hlimit Hin.
  destruct (containerWin h) as [w |] eqn:Hw; revert Hin; run_config Hw.
  - unfold lines. rewrite Htotal, Hcmd, Hlimit. cbn [JS.sub JS.min fst].
    intros Hin.
    assert (Hmh : mh = JS.min (Int (total - cmdheight - 1 - winRow - 1))
                         (Int limit ||| Int (total - cmdheight - 1))%js).
    { repeat match type of Hin with
             | context [if ?b then _ else _] => destruct b
             end;
        cbn in Hin;
        repeat (destruct Hin as [Hin | Hin]; try discriminate Hin);
        try contradiction; inversion Hin; reflexivity. }
    rewrite Hmh. unfold JS.or_else, truthy.
    destruct (Z.eqb_spec limit 0) as [Hz | Hz]; cbn [negb JS.min];
      eexists; (split; [reflexivity |]); split; try lia.
  - intros Hin. destruct Hin.
Qed.

Lemma getWindowConfig_height_budget_witness :
  exists height : Z,
    Int 25 = Int height
    /\ (height <= 40 - 1 - 1 - 12 - 1)%Z
    /\ (999%Z <> 0%Z -> (height <= 999)%Z).
Proof.
  apply (getWindowConfig_height_budget sample_host sample_docs sample_factory
           40 1 12 4 999 sample_docs (Int 79) (Int 25) eq_refl eq_refl eq_refl).
  left. reflexivity.
Defined.

End Placement.

(** ** More on the columns *)
Module ColumnCells.

Import Column.
Local Open Scope string_scope.

Lemma row_content_app (row added : Row) :
  row_content (row ++ added)%list = row_content row ++ row_content added.
Proof.
  unfold row_content. induction row as [| c rest IH]; cbn [app fold_right].
  - reflexivity.
  - rewrite IH. clear IH.
    induction (text c) as [| a t IHt]; cbn; [reflexivity | f_equal; exact IHt].
Qed.

(** X19: the readonly column only ever appends: the cells already in the
    row stay as they are, at most one cell is added, and a cell it adds
    is never empty and always carries the readonly highlight; the text
    of the row grows by the glyph, by ['RO'] or not at all. *)
Theorem readonly_column_appends :
  forall (fileHighlights_readonly : Highlight) (config_get : string -> bool)
         (row : Row) (node : FileNode),
    let column := readonly_column fileHighlights_readonly config_get in
    exists added : Row,
      drawNode column row node = (row ++ added)%list
      /\ (length added <= 1)%nat
      /\ Forall (fun c => text c <> "" /\ hl c = fileHighlights_readonly) added
      /\ row_content (drawNode column row node)
         = row_content row
           ++ (if readonly node
               then (if config_get "icon.enableNerdfont" then readonly_icon else "RO")
               else "").
Proof.
  intros hlr config_get row node column. subst column.
  unfold readonly_column. cbn [drawNode].
  destruct (readonly node).
  - eexists. split; [reflexivity |]. split; [cbn; lia |]. split.
    + constructor; [| constructor]. cbn [text hl]. split; [| reflexivity].
      destruct (config_get "icon.enableNerdfont"); intros H; discriminate H.
    + unfold add. rewrite row_content_app. cbn.
      destruct (config_get "icon.enableNerdfont"); reflexivity.
  - exists []. split; [symmetry; apply app_nil_r |]. split; [cbn; lia |]. split.
    + constructor.
    + clear. induction (row_content row) as [| a t IHt]; cbn;
        [reflexivity | f_equal; exact IHt].
Qed.

End ColumnCells.

(** ** More on the preset list *)
Module PresetCommands.

Import Preset.
Local Open Scope string_scope.

Lemma do_action_loaded (presets : list (string * value)) :
  map (run_action PresetList "do") (loadItems presets)
  = map (fun n => Some (Commands ["CocCommand explorer --preset " ++ n]))
        (Object_keys presets).
Proof.
  unfold loadItems. rewrite map_map. reflexivity.
Qed.

(** X20: the presets of a dictionary (whose keys are distinct, as the
    keys of an object are) get pairwise distinct commands: the ['do']
    action never sends the same command for two different items of the
    list, and the preset name can be read back from the command. *)
Theorem loadItems_commands_distinct :
  forall (presets : list (string * value)),
    NoDup (Object_keys presets) ->
    NoDup (map (run_action PresetList "do") (loadItems presets)).
Proof.
  intros presets Hkeys. rewrite do_action_loaded.
  induction Hkeys as [| k keys Hnotin Hnodup IH]; cbn [map].
  - constructor.
  - constructor; [| exact IH].
    intros Hin. apply in_map_iff in Hin. destruct Hin as [k' [Heq Hk']].
    inversion Heq as [Hcmd]. subst k'. exact (Hnotin Hk').
Qed.

Lemma loadItems_commands_distinct_witness :
  NoDup (map (run_action PresetList "do")
           (loadItems [("floating", VObj []); ("tab", VObj [])])).
Proof.
  apply (loadItems_commands_distinct [("floating", VObj []); ("tab", VObj [])]).
  constructor.
  - intros [H | H]; [discriminate H | exact H].
  - constructor; [intros H; exact H | constructor].
Defined.

(** X21: the ['do'] action on an item without [data] fails with a type
    error before any command is sent, while an item whose [data] has no
    [name] sends the command with the text [undefined] for the name. *)
Theorem do_action_missing_name :
  (forall props : list (string * value),
     lookup "data" props = VUndefined ->
     run_action PresetList "do" (VObj props) = Some ActionTypeError)
  /\ (forall (props data : list (string * value)),
        lookup "data" props = VObj data ->
        lookup "name" data = VUndefined ->
        run_action PresetList "do" (VObj props)
        = Some (Commands ["CocCommand explorer --preset undefined"])).
Proof.
  split.
  - intros props Hdata.
    change (run_action PresetList "do" (VObj props))
      with (Some (do_action (VObj props))).
    unfold do_action. cbn [get]. rewrite Hdata. reflexivity.
  - intros props data Hdata Hname.
    change (run_action PresetList "do" (VObj props))
      with (Some (do_action (VObj props))).
    unfold do_action. cbn [get]. rewrite Hdata. cbn [get]. rewrite Hname.
    reflexivity.
Qed.

Lemma do_action_missing_name_witness :
  run_action PresetList "do" (VObj [("label", VStr "floating")])
  = Some ActionTypeError.
Proof.
  exact (proj1 do_action_missing_name [("label", VStr "floating")] eq_refl).
Defined.

End PresetCommands.
